(** * jax-code-coffee: the demo notebook, embedded over the real numbers

    The notebook [demo.ipynb] defines a two-component Gaussian mixture
    ([model_numpy], [model_jax]), its chi-square objective ([chi2_numpy],
    [chi2_jax]), a synthetic data set, a probabilistic model
    ([numpyro_model]) and the sampler configuration.  Arrays are
    one-dimensional and hold real numbers; floating point rounding is not
    modelled.  Python exceptions are explicit outcomes.  Where the edge of
    the float range decides what the code does (a square that overflows,
    the float32 grid of the sample array), the sections at the end say so
    and model it. *)

From Stdlib Require Import String ZArith Reals Lra Lia Arith List.
Import ListNotations.
Open Scope R_scope.

(** ** Arrays, exceptions and outcomes *)

Definition array := list R.

(** The ways a cell of the notebook can raise: a tuple unpacking with the
    wrong number of values, two array shapes that do not broadcast, and a
    power of a Python float whose result leaves the float range. *)
Inductive exn : Type :=
| UnpackError (expected got : nat)
| ShapeError (m n : nat)
| OverflowError.

(** An evaluation either raises, or is done with a value.  [divisors] is a
    ghost log of every divisor met on the way, in evaluation order: numpy
    and jax do not raise on a zero divisor (they produce inf or nan), so
    the log is how a statement can speak about the divisions. *)
Inductive outcome (A : Type) : Type :=
| Done (a : A) (divisors : list R)
| Raised (e : exn).
Arguments Done {A} a divisors.
Arguments Raised {A} e.

Definition ret {A} (a : A) : outcome A := Done a [].

Definition bind {A B} (c : outcome A) (k : A -> outcome B) : outcome B :=
  match c with
  | Done a ds =>
      match k a with
      | Done b ds' => Done b (ds ++ ds')
      | Raised e => Raised e
      end
  | Raised e => Raised e
  end.

Declare Scope outcome_scope.
Delimit Scope outcome_scope with outcome.
Notation "x <- c ;; k" := (bind c (fun x => k))
  (at level 61, c at next level, right associativity) : outcome_scope.
Notation "' pat <- c ;; k" := (bind c (fun x => match x with pat => k end))
  (at level 61, pat pattern, c at next level, right associativity) : outcome_scope.
Open Scope outcome_scope.

Definition value {A} (c : outcome A) : option A :=
  match c with Done a _ => Some a | Raised _ => None end.

Definition divisions {A} (c : outcome A) : list R :=
  match c with Done _ ds => ds | Raised _ => [] end.

(** ** Array arithmetic as numpy and jax.numpy do it *)

(** [x - c], [c * x] and [x ** 2] with a scalar [c]: always defined. *)
Definition arr_sub_s (x : array) (c : R) : array := map (fun v => v - c) x.
Definition s_mul_arr (c : R) (x : array) : array := map (fun v => c * v) x.
Definition arr_pow2 (x : array) : array := map (fun v => v ^ 2) x.

(** [x / d] with a scalar [d]: never raises; the divisor is logged. *)
Definition arr_div_s (x : array) (d : R) : outcome array :=
  Done (map (fun v => v / d) x) [d].

(** A binary operator on two one-dimensional arrays broadcasts: equal
    lengths combine elementwise, a length-one array is stretched, anything
    else raises. *)
Definition zip_with (f : R -> R -> R) (a b : array) : array :=
  map (fun ab => f (fst ab) (snd ab)) (combine a b).

Definition broadcast2 (f : R -> R -> R) (a b : array) : outcome array :=
  if Nat.eqb (length a) (length b) then ret (zip_with f a b)
  else match a, b with
       | [u], _ => ret (map (fun v => f u v) b)
       | _, [v] => ret (map (fun u => f u v) a)
       | _, _ => Raised (ShapeError (length a) (length b))
       end.

Definition arr_add : array -> array -> outcome array := broadcast2 Rplus.
Definition arr_sub : array -> array -> outcome array := broadcast2 Rminus.

(** Tuple unpacking [a0, x0, s0, a1, x1, s1 = p]. *)
Definition unpack6 (p : list R) : outcome (R * R * R * R * R * R) :=
  match p with
  | [a0; x0; s0; a1; x1; s1] => ret (a0, x0, s0, a1, x1, s1)
  | _ => Raised (UnpackError 6 (length p))
  end.

(** The two array libraries.  Both [exp] are the elementwise exponential.
    The order in which a reduction accumulates is the library's business;
    [np.sum] accumulates from the left and [jnp.sum] from the right. *)
Module np.
Definition exp (a : array) : array := map Rtrigo_def.exp a.
Definition sum (a : array) : R := fold_left Rplus a 0.
End np.

Module jnp.
Definition exp (a : array) : array := map Rtrigo_def.exp a.
Definition sum (a : array) : R := fold_right Rplus 0 a.
End jnp.

(** ** The model and the objective (demo.ipynb) *)

Definition model_numpy (p : list R) (x : array) : outcome array :=
  '(a0, x0, s0, a1, x1, s1) <- unpack6 p ;;
  e0 <- arr_div_s (s_mul_arr (-0.5) (arr_pow2 (arr_sub_s x x0))) (s0 ^ 2) ;;
  e1 <- arr_div_s (s_mul_arr (-0.5) (arr_pow2 (arr_sub_s x x1))) (s1 ^ 2) ;;
  arr_add (s_mul_arr a0 (np.exp e0)) (s_mul_arr a1 (np.exp e1)).

Definition chi2_numpy (p : list R) (x y : array) (yerr : R) : outcome R :=
  m <- model_numpy p x ;;
  r <- arr_sub m y ;;
  q <- arr_div_s (arr_pow2 r) (yerr ^ 2) ;;
  ret (np.sum q).

Definition model_jax (p : list R) (x : array) : outcome array :=
  '(a0, x0, s0, a1, x1, s1) <- unpack6 p ;;
  e0 <- arr_div_s (s_mul_arr (-0.5) (arr_pow2 (arr_sub_s x x0))) (s0 ^ 2) ;;
  e1 <- arr_div_s (s_mul_arr (-0.5) (arr_pow2 (arr_sub_s x x1))) (s1 ^ 2) ;;
  arr_add (s_mul_arr a0 (jnp.exp e0)) (s_mul_arr a1 (jnp.exp e1)).

Definition chi2_jax (p : list R) (x y : array) (yerr : R) : outcome R :=
  m <- model_jax p x ;;
  r <- arr_sub m y ;;
  q <- arr_div_s (arr_pow2 r) (yerr ^ 2) ;;
  ret (jnp.sum q).

(** The mixture in the spec's words, at one abscissa. *)
Definition mixture_spec (a0 x0 s0 a1 x1 s1 v : R) : R :=
  a0 * exp (- 0.5 * (v - x0) ^ 2 / s0 ^ 2) + a1 * exp (- 0.5 * (v - x1) ^ 2 / s1 ^ 2).

(** The chi-square in the spec's words: the sum over [i] of the squared
    residuals, here without and with the weight [1 / yerr ^ 2]. *)
Fixpoint sum_sq_residuals (m y : array) : R :=
  match m, y with
  | mi :: m', yi :: y' => (mi - yi) ^ 2 + sum_sq_residuals m' y'
  | _, _ => 0
  end.

Fixpoint sum_weighted_sq_residuals (m y : array) (yerr : R) : R :=
  match m, y with
  | mi :: m', yi :: y' => (mi - yi) ^ 2 / yerr ^ 2 + sum_weighted_sq_residuals m' y' yerr
  | _, _ => 0
  end.

(** ** Library functions the cells call *)

(** [linspace start stop num], end point included: [num] samples
    [start + i * step] with [step = (stop - start) / (num - 1)].  These
    are the exact samples; the float32 values that jax stores for them are
    the subject of the last section. *)
Definition linspace (start stop : R) (num : nat) : array :=
  map (fun i => start + INR i * ((stop - start) / INR (num - 1))) (seq 0 num).

(** [np.random.normal(loc=0, scale, size)]: the seeded generator yields a
    stream [randn] of standard normal deviates; the draw takes the first
    [size] of them. *)
Definition np_random_normal (randn : nat -> R) (scale : R) (size : nat) : array :=
  map (fun i => 0 + scale * randn i) (seq 0 size).

(** Random keys of [jax.random]: a key is a seed or the [i]-th of the
    [num] children of a key. *)
Inductive PRNGKeyArray : Type :=
| PRNGKey (seed : Z)
| Child (parent : PRNGKeyArray) (num i : nat).

Definition split (key : PRNGKeyArray) (num : nat) : list PRNGKeyArray :=
  map (Child key num) (seq 0 num).

(** The environment [numpyro.set_host_device_count] writes to. *)
Record host_env : Type := { xla_force_host_platform_device_count : option nat }.

Definition set_host_device_count (n : nat) (_ : host_env) : host_env :=
  {| xla_force_host_platform_device_count := Some n |}.

(** ** Probabilistic programs *)

Inductive dist : Type :=
| Uniform (low high : R)
| Normal (loc : array) (scale : R).

(** A numpyro program: [Sample0] is [numpyro.sample] with the default
    [sample_shape=()], [SampleN] with [sample_shape=(n,)], [Observe] with
    [obs=...]; [Throw] is a Python exception. *)
Inductive numpyro (A : Type) : Type :=
| Pure (a : A)
| Sample0 (name : string) (fn : dist) (k : R -> numpyro A)
| SampleN (name : string) (fn : dist) (n : nat) (k : array -> numpyro A)
| Observe (name : string) (fn : dist) (obs : array) (k : numpyro A)
| Throw (e : exn).
Arguments Pure {A} a.
Arguments Sample0 {A} name fn k.
Arguments SampleN {A} name fn n k.
Arguments Observe {A} name fn obs k.
Arguments Throw {A} e.

Fixpoint nbind {A B} (m : numpyro A) (f : A -> numpyro B) : numpyro B :=
  match m with
  | Pure a => f a
  | Sample0 name fn k => Sample0 name fn (fun v => nbind (k v) f)
  | SampleN name fn n k => SampleN name fn n (fun v => nbind (k v) f)
  | Observe name fn obs k => Observe name fn obs (nbind k f)
  | Throw e => Throw e
  end.

Declare Scope numpyro_scope.
Delimit Scope numpyro_scope with numpyro.
Notation "x <- c ;; k" := (nbind c (fun x => k))
  (at level 61, c at next level, right associativity) : numpyro_scope.
Notation "' pat <- c ;; k" := (nbind c (fun x => match x with pat => k end))
  (at level 61, pat pattern, c at next level, right associativity) : numpyro_scope.

Definition sample (name : string) (fn : dist) : numpyro R :=
  Sample0 name fn (fun v => Pure v).
Definition sample_n (name : string) (fn : dist) (n : nat) : numpyro array :=
  SampleN name fn n (fun v => Pure v).
Definition observe (name : string) (fn : dist) (obs : array) : numpyro unit :=
  Observe name fn obs (Pure tt).

(** Tuple unpacking [u, v = a]. *)
Definition unpack2 (a : array) : numpyro (R * R) :=
  match a with
  | [u; v] => Pure (u, v)
  | _ => Throw (UnpackError 2 (length a))
  end.

(** A call of a notebook function from inside a program. *)
Definition call {A} (c : outcome A) : numpyro A :=
  match c with
  | Done a _ => Pure a
  | Raised e => Throw e
  end.

(** One entry of an execution trace. *)
Record site : Type := {
  site_name : string;
  site_fn : dist;
  site_value : array;
  is_observed : bool
}.

(** Running a program under a handler [h] that supplies the value of
    component [i] of the latent site [name]; a site of shape [(n,)] gets
    exactly [n] components.  Only the notebook's own steps can fail here:
    what the numpyro library itself rejects is not modelled. *)
Fixpoint run {A} (h : string -> nat -> R) (m : numpyro A) : list site * (A + exn) :=
  match m with
  | Pure a => ([], inl a)
  | Sample0 name fn k =>
      let v := h name 0%nat in
      let (tr, r) := run h (k v) in
      ({| site_name := name; site_fn := fn; site_value := [v]; is_observed := false |} :: tr, r)
  | SampleN name fn n k =>
      let v := map (h name) (seq 0 n) in
      let (tr, r) := run h (k v) in
      ({| site_name := name; site_fn := fn; site_value := v; is_observed := false |} :: tr, r)
  | Observe name fn obs k =>
      let (tr, r) := run h k in
      ({| site_name := name; site_fn := fn; site_value := obs; is_observed := true |} :: tr, r)
  | Throw e => ([], inr e)
  end.

(** The distribution a trace records for a site. *)
Definition prior_of (tr : list site) (name : string) : option dist :=
  option_map site_fn (find (fun s => String.eqb (site_name s) name) tr).

(** The open interval on which a uniform prior has positive density. *)
Definition strictly_inside (fn : dist) (v : R) : Prop :=
  match fn with
  | Uniform low high => low < v < high
  | Normal _ _ => True
  end.

(** [numpyro_model] reads the globals [x], [y] and [yerr]; they are its
    parameters here. *)
Definition numpyro_model (x y : array) (yerr : R) : numpyro unit :=
  (a0 <- sample "amp0" (Uniform 0 8) ;;
   a1 <- sample "amp1" (Uniform 8 30) ;;
   '(x0, x1) <- (c <- sample_n "center" (Uniform (-1) 1) 2 ;; unpack2 c) ;;
   '(s0, s1) <- (s <- sample_n "sigma" (Uniform 0 3) 2 ;; unpack2 s) ;;
   loc <- call (model_jax [a0; x0; s0; a1; x1; s1] x) ;;
   observe "obs" (Normal loc yerr) y)%numpyro.

(** The sampler objects of [numpyro.infer]: a kernel around a model, and
    the Monte Carlo driver with its settings. *)
Record NUTS : Type := { model : array -> array -> R -> numpyro unit; dense_mass : bool }.

Record MCMC : Type := {
  kernel : NUTS;
  num_warmup : nat;
  num_samples : nat;
  num_chains : nat
}.

(** ** The cells' global variables (demo.ipynb) *)

Module demo.

Definition cpu_cores : nat := 4.

Definition host : host_env :=
  set_host_device_count cpu_cores {| xla_force_host_platform_device_count := None |}.

Definition dev_arr : array := linspace (-5) 5 1000.

Definition x : array := dev_arr.

Definition amp0 : R := 5.
Definition amp1 : R := 10.
Definition x0 : R := 0.5.
Definition x1 : R := -0.2.
Definition s0 : R := 1.
Definition s1 : R := 0.3.
Definition yerr : R := 0.4.

(** The synthetic data over any abscissae [xs] and noise stream; the
    notebook's [y] is at [xs := x]. *)
Definition synthetic (randn : nat -> R) (xs : array) : outcome array :=
  e0 <- arr_div_s (s_mul_arr (-0.5) (arr_pow2 (arr_sub_s xs x0))) (s0 ^ 2) ;;
  e1 <- arr_div_s (s_mul_arr (-0.5) (arr_pow2 (arr_sub_s xs x1))) (s1 ^ 2) ;;
  g <- arr_add (s_mul_arr amp0 (np.exp e0)) (s_mul_arr amp1 (np.exp e1)) ;;
  arr_add g (np_random_normal randn yerr (length xs)).

Definition y (randn : nat -> R) : outcome array := synthetic randn x.

Definition init_guess : list R := [5; 0; 2; 10; 0; 0.8].

Definition rng_seed : Z := 42%Z.

Definition rng_keys : list PRNGKeyArray := split (PRNGKey rng_seed) cpu_cores.

Definition sampler : NUTS := {| model := numpyro_model; dense_mass := true |}.

Definition mcmc : MCMC :=
  {| kernel := sampler; num_warmup := 1000; num_samples := 5000; num_chains := 4 |}.

(** The ground truth of the synthetic data, collected for the statements
    below: in the order of the model's parameter vector, in the order of
    the corner plot ([truths]), and as a handler for [numpyro_model]'s
    sites. *)
Definition p_true : list R := [amp0; x0; s0; amp1; x1; s1].

Definition truths : list R := [amp0; amp1; x0; x1; s0; s1].

Definition truth (name : string) (i : nat) : R :=
  if String.eqb name "amp0" then amp0
  else if String.eqb name "amp1" then amp1
  else if String.eqb name "center" then nth i [x0; x1] 0
  else if String.eqb name "sigma" then nth i [s0; s1] 0
  else 0.

End demo.

(** ** The later revision of the notebook

    The same cells with normalised Gaussians and other priors. *)

Module revision.

(** [a / d] on two scalars; the divisor is logged.  This is the division of
    numpy scalars, which does not raise; on Python floats the source raises
    [ZeroDivisionError] at [d = 0], a case every statement below excludes
    by a nonzero width. *)
Definition s_div (a d : R) : outcome R := Done (a / d) [d].

Definition model_numpy (p : list R) (x : array) : outcome array :=
  '(a0, x0, s0, a1, x1, s1) <- unpack6 p ;;
  c0 <- s_div a0 s0 ;;
  n0 <- s_div c0 (Rpower (2 * PI) 0.5) ;;
  e0 <- arr_div_s (s_mul_arr (-0.5) (arr_pow2 (arr_sub_s x x0))) (s0 ^ 2) ;;
  c1 <- s_div a1 s1 ;;
  n1 <- s_div c1 (Rpower (2 * PI) 0.5) ;;
  e1 <- arr_div_s (s_mul_arr (-0.5) (arr_pow2 (arr_sub_s x x1))) (s1 ^ 2) ;;
  arr_add (s_mul_arr n0 (np.exp e0)) (s_mul_arr n1 (np.exp e1)).

Definition model_jax (p : list R) (x : array) : outcome array :=
  '(a0, x0, s0, a1, x1, s1) <- unpack6 p ;;
  c0 <- s_div a0 s0 ;;
  n0 <- s_div c0 (Rpower (2 * PI) 0.5) ;;
  e0 <- arr_div_s (s_mul_arr (-0.5) (arr_pow2 (arr_sub_s x x0))) (s0 ^ 2) ;;
  c1 <- s_div a1 s1 ;;
  n1 <- s_div c1 (Rpower (2 * PI) 0.5) ;;
  e1 <- arr_div_s (s_mul_arr (-0.5) (arr_pow2 (arr_sub_s x x1))) (s1 ^ 2) ;;
  arr_add (s_mul_arr n0 (jnp.exp e0)) (s_mul_arr n1 (jnp.exp e1)).

Definition numpyro_model (x y : array) (yerr : R) : numpyro unit :=
  ('(a0, a1) <- (a <- sample_n "amp" (Uniform 1 6) 2 ;; unpack2 a) ;;
   x0 <- sample "x0" (Uniform 0.1 2) ;;
   x1 <- sample "x1" (Uniform (-1) 0.1) ;;
   '(s0, s1) <- (s <- sample_n "sigma" (Uniform 0 1) 2 ;; unpack2 s) ;;
   loc <- call (model_jax [a0; x0; s0; a1; x1; s1] x) ;;
   observe "obs" (Normal loc yerr) y)%numpyro.

Definition normalised_mixture (a0 x0 s0 a1 x1 s1 v : R) : R :=
  a0 / s0 / Rpower (2 * PI) 0.5 * exp (- 0.5 * (v - x0) ^ 2 / s0 ^ 2) +
  a1 / s1 / Rpower (2 * PI) 0.5 * exp (- 0.5 * (v - x1) ^ 2 / s1 ^ 2).

Definition chi2_numpy (p : list R) (x y : array) (yerr : R) : outcome R :=
  m <- model_numpy p x ;;
  r <- arr_sub m y ;;
  q <- arr_div_s (arr_pow2 r) (yerr ^ 2) ;;
  ret (np.sum q).

Definition chi2_jax (p : list R) (x y : array) (yerr : R) : outcome R :=
  m <- model_jax p x ;;
  r <- arr_sub m y ;;
  q <- arr_div_s (arr_pow2 r) (yerr ^ 2) ;;
  ret (jnp.sum q).

Definition dev_arr : array := linspace (-5) 5 1000.

Definition x : array := dev_arr.

Definition amp0 : R := 5.
Definition amp1 : R := 4.
Definition x0 : R := 0.5.
Definition x1 : R := -0.2.
Definition s0 : R := 0.7.
Definition s1 : R := 0.3.
Definition yerr : R := 0.4.

(** The synthetic data of the revision over any abscissae [xs] and noise
    stream; its [y] is at [xs := x]. *)
Definition synthetic (randn : nat -> R) (xs : array) : outcome array :=
  c0 <- s_div amp0 s0 ;;
  n0 <- s_div c0 (Rpower (2 * PI) 0.5) ;;
  e0 <- arr_div_s (s_mul_arr (-0.5) (arr_pow2 (arr_sub_s xs x0))) (s0 ^ 2) ;;
  c1 <- s_div amp1 s1 ;;
  n1 <- s_div c1 (Rpower (2 * PI) 0.5) ;;
  e1 <- arr_div_s (s_mul_arr (-0.5) (arr_pow2 (arr_sub_s xs x1))) (s1 ^ 2) ;;
  g <- arr_add (s_mul_arr n0 (np.exp e0)) (s_mul_arr n1 (np.exp e1)) ;;
  arr_add g (np_random_normal randn yerr (length xs)).

Definition y (randn : nat -> R) : outcome array := synthetic randn x.

End revision.

(** ** Further cells and views used in the statements *)

(** The mixture at one abscissa, read off a parameter vector. *)
Definition mixture_of (p : list R) (v : R) : R :=
  mixture_spec (nth 0 p 0) (nth 1 p 0) (nth 2 p 0) (nth 3 p 0) (nth 4 p 0) (nth 5 p 0) v.

(** Every latent site of a trace holds values strictly inside the support
    of its prior. *)
Definition draw_inside_priors (tr : list site) : Prop :=
  Forall (fun s => is_observed s = false ->
                   Forall (strictly_inside (site_fn s)) (site_value s)) tr.

(** The location array of the observed site of a trace. *)
Definition observed_loc (tr : list site) : option array :=
  match find is_observed tr with
  | Some {| site_fn := Normal loc _ |} => Some loc
  | _ => None
  end.

(** Handlers that exchange the two components of a draw: in demo.ipynb the
    sites are [amp0], [amp1], [center] and [sigma]; in the revision [amp],
    [x0], [x1] and [sigma]. *)
Definition swap_labels (h : string -> nat -> R) (name : string) (i : nat) : R :=
  if String.eqb name "amp0" then h "amp1"%string 0%nat
  else if String.eqb name "amp1" then h "amp0"%string 0%nat
  else h name (1 - i)%nat.

Definition revision_swap_labels (h : string -> nat -> R) (name : string) (i : nat) : R :=
  if String.eqb name "x0" then h "x1"%string 0%nat
  else if String.eqb name "x1" then h "x0"%string 0%nat
  else h name (1 - i)%nat.

(** The handler that exchanges only the two amplitudes of the revision's
    site [amp]. *)
Definition swap_amplitudes (h : string -> nat -> R) (name : string) (i : nat) : R :=
  if String.eqb name "amp" then h name (1 - i)%nat else h name i.

(** The ground truth of the revision's synthetic data as a handler for the
    sites of its [numpyro_model]. *)
Definition revision_truth (name : string) (i : nat) : R :=
  if String.eqb name "amp" then nth i [revision.amp0; revision.amp1] 0
  else if String.eqb name "x0" then revision.x0
  else if String.eqb name "x1" then revision.x1
  else if String.eqb name "sigma" then nth i [revision.s0; revision.s1] 0
  else 0.

(** ** Python floats against numpy scalars

    Over the reals [v ** 2] is [v ^ 2].  At the edge of the float range the
    source behaves by the kind of number it is given: on an element of a
    numpy array (as when [p] is an array, which is what the optimisers
    pass) the power never raises; on a Python float (as the notebook's
    [yerr = 0.4], or the elements of a plain list) it raises
    [OverflowError] when the square rounds to infinity in binary64, that
    is from [(2 - 2^-53) * 2^1023] on.  Inside [jit] every number is a
    float32 array element and no power raises. *)

Inductive scalar_kind : Type := numpy_scalar | python_float.

Definition float64_overflow : R := (2 ^ 54 - 1) * 2 ^ 970.

Definition pow2 (k : scalar_kind) (v : R) : outcome R :=
  match k with
  | numpy_scalar => ret (v ^ 2)
  | python_float =>
      if Rle_dec float64_overflow (v ^ 2) then Raised OverflowError else ret (v ^ 2)
  end.

(** [model_numpy] and [chi2_numpy] with the kind of their scalars made
    explicit: [kp] for the components of [p], [ky] for [yerr].  The
    definitions above are the instance with numpy scalars throughout. *)
Definition model_numpy_as (kp : scalar_kind) (p : list R) (x : array) : outcome array :=
  '(a0, x0, s0, a1, x1, s1) <- unpack6 p ;;
  d0 <- pow2 kp s0 ;;
  e0 <- arr_div_s (s_mul_arr (-0.5) (arr_pow2 (arr_sub_s x x0))) d0 ;;
  d1 <- pow2 kp s1 ;;
  e1 <- arr_div_s (s_mul_arr (-0.5) (arr_pow2 (arr_sub_s x x1))) d1 ;;
  arr_add (s_mul_arr a0 (np.exp e0)) (s_mul_arr a1 (np.exp e1)).

Definition chi2_numpy_as (kp ky : scalar_kind) (p : list R) (x y : array) (yerr : R)
  : outcome R :=
  m <- model_numpy_as kp p x ;;
  r <- arr_sub m y ;;
  d <- pow2 ky yerr ;;
  q <- arr_div_s (arr_pow2 r) d ;;
  ret (np.sum q).

(** Widths and error bars whose squares stay inside the normal range of
    float32, and so of float64: between [2^-126] and [2^126]. *)
Definition in_normal_range (d : R) : Prop := / 2 ^ 126 <= d <= 2 ^ 126.

Definition square_stays_normal (s : R) : Prop := / 2 ^ 63 <= Rabs s <= 2 ^ 63.

(** ** Float32 numbers

    The notebook notes that a device array holds float32 numbers: the
    reals [m * 2^e] with [|m| < 2^24] and [-149 <= e <= 104]. *)
Definition binary32 (r : R) : Prop :=
  exists m e : Z,
    (Z.abs m < 2 ^ 24)%Z /\ (-149 <= e <= 104)%Z /\ r = IZR m * powerRZ 2 e.

(** An array that stays within [delta] of another, element by element. *)
Definition within (delta : R) (a ideal : array) : Prop :=
  length a = length ideal /\
  forall i, (i < length ideal)%nat -> Rabs (nth i a 0 - nth i ideal 0) <= delta.

(** A real rounded down to a multiple of [2^-21]. *)
Definition floor_to_grid (r : R) : R := IZR (Int_part (r * 2 ^ 21)) / 2 ^ 21.

(** ** Shapes that combine *)

Definition broadcastable (m n : nat) : Prop := m = n \/ m = 1%nat \/ n = 1%nat.

(** * Properties *)

(** ** Outcomes and array arithmetic *)

Lemma bind_raised_inv {A B} (c : outcome A) (k : A -> outcome B) (e : exn) :
  bind c k = Raised e <->
  c = Raised e \/ exists a ds, c = Done a ds /\ k a = Raised e.
Proof.
  unfold bind. destruct c as [a ds|e0].
  - destruct (k a) as [b ds'|e1] eqn:Hk; split.
    + discriminate.
    + intros [H|(a' & ds0 & H & H')]; [discriminate|].
      injection H as <- <-. congruence.
    + intros H. right. exists a, ds. split; [reflexivity|congruence].
    + intros [H|(a' & ds0 & H & H')]; [discriminate|].
      injection H as <- <-. congruence.
  - split.
    + intros H. left. congruence.
    + intros [H|(a' & ds0 & H & _)]; [congruence|discriminate].
Qed.

Lemma zip_with_maps (f : R -> R -> R) (g h : R -> R) (l : array) :
  zip_with f (map g l) (map h l) = map (fun v => f (g v) (h v)) l.
Proof.
  unfold zip_with. induction l as [|v l IH]; cbn; [reflexivity|].
  now f_equal.
Qed.

Lemma zip_with_length (f : R -> R -> R) (a b : array) :
  length a = length b -> length (zip_with f a b) = length a.
Proof.
  intros H. unfold zip_with. rewrite length_map, length_combine, <- H.
  apply Nat.min_id.
Qed.

Lemma broadcast2_same_length (f : R -> R -> R) (a b : array) :
  length a = length b -> broadcast2 f a b = Done (zip_with f a b) [].
Proof.
  intros H. unfold broadcast2. rewrite H, Nat.eqb_refl. reflexivity.
Qed.

Lemma broadcast2_done (f : R -> R -> R) (a b : array) :
  broadcastable (length a) (length b) ->
  exists r, broadcast2 f a b = Done r [].
Proof.
  intros [H|[H|H]].
  - rewrite broadcast2_same_length by assumption. eauto.
  - unfold broadcast2. destruct (Nat.eqb _ _); [unfold ret; eauto|].
    destruct a as [|u [|u' a]]; try discriminate. unfold ret; eauto.
  - unfold broadcast2. destruct (Nat.eqb _ _); [unfold ret; eauto|].
    destruct b as [|v [|v' b]]; try discriminate.
    destruct a as [|u [|u' a]]; unfold ret; eauto.
Qed.

Lemma broadcast2_raised (f : R -> R -> R) (a b : array) (e : exn) :
  broadcast2 f a b = Raised e ->
  e = ShapeError (length a) (length b) /\ ~ broadcastable (length a) (length b).
Proof.
  unfold broadcast2, broadcastable.
  destruct (Nat.eqb_spec (length a) (length b)) as [Heq|Hne]; [discriminate|].
  destruct a as [|u [|u' a]]; destruct b as [|v [|v' b]]; cbn in *;
    try discriminate; intros H; injection H as <-;
    (split; [reflexivity|lia]).
Qed.

Lemma broadcast2_log (f : R -> R -> R) (a b r : array) (ds : list R) :
  broadcast2 f a b = Done r ds -> ds = [].
Proof.
  unfold broadcast2, ret.
  destruct (Nat.eqb _ _); [congruence|].
  destruct a as [|u [|u' a]]; destruct b as [|v [|v' b]]; congruence.
Qed.

Lemma np_sum_acc (a : array) (acc : R) :
  fold_left Rplus a acc = acc + fold_right Rplus 0 a.
Proof.
  revert acc. induction a as [|v a IH]; intros acc; cbn.
  - lra.
  - rewrite IH. lra.
Qed.

Lemma np_sum_jnp_sum (a : array) : np.sum a = jnp.sum a.
Proof.
  unfold np.sum, jnp.sum. rewrite np_sum_acc. lra.
Qed.

(** ** The closed form of the model *)

Lemma model_numpy_closed_form (a0 x0 s0 a1 x1 s1 : R) (x : array) :
  model_numpy [a0; x0; s0; a1; x1; s1] x =
  Done (map (mixture_spec a0 x0 s0 a1 x1 s1) x) [s0 ^ 2; s1 ^ 2].
Proof.
  unfold model_numpy, unpack6, arr_div_s, arr_add, np.exp,
    s_mul_arr, arr_pow2, arr_sub_s.
  cbn [bind ret app].
  rewrite !map_map.
  rewrite broadcast2_same_length by (rewrite !length_map; reflexivity).
  rewrite zip_with_maps. reflexivity.
Qed.

Lemma model_jax_closed_form (a0 x0 s0 a1 x1 s1 : R) (x : array) :
  model_jax [a0; x0; s0; a1; x1; s1] x =
  Done (map (mixture_spec a0 x0 s0 a1 x1 s1) x) [s0 ^ 2; s1 ^ 2].
Proof.
  unfold model_jax, unpack6, arr_div_s, arr_add, jnp.exp,
    s_mul_arr, arr_pow2, arr_sub_s.
  cbn [bind ret app].
  rewrite !map_map.
  rewrite broadcast2_same_length by (rewrite !length_map; reflexivity).
  rewrite zip_with_maps. reflexivity.
Qed.

Lemma unpack6_raised (p : list R) :
  length p <> 6%nat -> unpack6 p = Raised (UnpackError 6 (length p)).
Proof.
  intros H. unfold unpack6.
  do 7 (destruct p as [|? p]; [reflexivity || (exfalso; apply H; reflexivity)|]).
  reflexivity.
Qed.

Lemma model_numpy_model_jax (p : list R) (x : array) :
  model_numpy p x = model_jax p x.
Proof.
  destruct (Nat.eq_dec (length p) 6) as [H|H].
  - do 7 (destruct p as [|? p]; try discriminate).
    now rewrite model_numpy_closed_form, model_jax_closed_form.
  - unfold model_numpy, model_jax. now rewrite unpack6_raised.
Qed.

(** ** The objective *)

Lemma jnp_sum_weighted (m y : array) (s : R) :
  jnp.sum (map (fun v => v / s ^ 2) (arr_pow2 (zip_with Rminus m y))) =
  sum_weighted_sq_residuals m y s.
Proof.
  unfold jnp.sum, arr_pow2, zip_with.
  revert y. induction m as [|mi m IH]; intros [|yi y]; cbn [combine map fold_right
    sum_weighted_sq_residuals fst snd]; try reflexivity.
  now rewrite IH.
Qed.

Lemma weighted_is_scaled (m y : array) (s : R) :
  sum_weighted_sq_residuals m y s = sum_sq_residuals m y / s ^ 2.
Proof.
  revert y. induction m as [|mi m IH]; intros [|yi y];
    cbn [sum_weighted_sq_residuals sum_sq_residuals]; try (unfold Rdiv; lra).
  rewrite IH. unfold Rdiv. lra.
Qed.

Lemma chi2_numpy_steps (p : list R) (x y m r : array) (yerr : R) (ds : list R) :
  model_numpy p x = Done m ds ->
  arr_sub m y = Done r [] ->
  chi2_numpy p x y yerr =
  Done (np.sum (map (fun v => v / yerr ^ 2) (arr_pow2 r))) (ds ++ [yerr ^ 2]).
Proof.
  intros Hm Hr. unfold chi2_numpy. rewrite Hm. cbn [bind]. rewrite Hr.
  reflexivity.
Qed.

Lemma chi2_jax_steps (p : list R) (x y m r : array) (yerr : R) (ds : list R) :
  model_jax p x = Done m ds ->
  arr_sub m y = Done r [] ->
  chi2_jax p x y yerr =
  Done (jnp.sum (map (fun v => v / yerr ^ 2) (arr_pow2 r))) (ds ++ [yerr ^ 2]).
Proof.
  intros Hm Hr. unfold chi2_jax. rewrite Hm. cbn [bind]. rewrite Hr.
  reflexivity.
Qed.

Lemma chi2_numpy_chi2_jax (p : list R) (x y : array) (yerr : R) :
  chi2_numpy p x y yerr = chi2_jax p x y yerr.
Proof.
  unfold chi2_numpy, chi2_jax. rewrite model_numpy_model_jax.
  destruct (model_jax p x) as [m ds|e]; [|reflexivity].
  cbn [bind]. destruct (arr_sub m y) as [r ds'|e]; [|reflexivity].
  cbn [bind arr_div_s ret]. now rewrite np_sum_jnp_sum.
Qed.

Lemma chi2_jax_equal_lengths (a0 x0 s0 a1 x1 s1 : R) (x y : array) (yerr : R) :
  length x = length y ->
  chi2_jax [a0; x0; s0; a1; x1; s1] x y yerr =
  Done (sum_weighted_sq_residuals (map (mixture_spec a0 x0 s0 a1 x1 s1) x) y yerr)
       [s0 ^ 2; s1 ^ 2; yerr ^ 2].
Proof.
  intros Hlen.
  erewrite chi2_jax_steps;
    [ | apply model_jax_closed_form
      | apply broadcast2_same_length; now rewrite length_map ].
  now rewrite jnp_sum_weighted.
Qed.

Lemma chi2_numpy_equal_lengths (a0 x0 s0 a1 x1 s1 : R) (x y : array) (yerr : R) :
  length x = length y ->
  chi2_numpy [a0; x0; s0; a1; x1; s1] x y yerr =
  Done (sum_weighted_sq_residuals (map (mixture_spec a0 x0 s0 a1 x1 s1) x) y yerr)
       [s0 ^ 2; s1 ^ 2; yerr ^ 2].
Proof.
  intros Hlen. rewrite chi2_numpy_chi2_jax. now apply chi2_jax_equal_lengths.
Qed.



(** ** The synthetic data *)

Lemma zip_with_plus_minus (m n : array) :
  length m = length n -> zip_with Rminus (zip_with Rplus m n) n = m.
Proof.
  unfold zip_with. revert n.
  induction m as [|mi m IH]; intros [|ni n] H; try discriminate; cbn.
  - reflexivity.
  - f_equal; [lra|]. apply IH. now injection H.
Qed.

Lemma np_random_normal_length (randn : nat -> R) (scale : R) (size : nat) :
  length (np_random_normal randn scale size) = size.
Proof.
  unfold np_random_normal. now rewrite length_map, length_seq.
Qed.

Lemma synthetic_closed_form (randn : nat -> R) (xs : array) :
  demo.synthetic randn xs =
  Done (zip_with Rplus
          (map (mixture_spec demo.amp0 demo.x0 demo.s0 demo.amp1 demo.x1 demo.s1) xs)
          (np_random_normal randn demo.yerr (length xs)))
       [demo.s0 ^ 2; demo.s1 ^ 2].
Proof.
  unfold demo.synthetic, arr_div_s, arr_add, np.exp, s_mul_arr, arr_pow2, arr_sub_s.
  cbn [bind ret app].
  rewrite !map_map.
  rewrite broadcast2_same_length by (rewrite !length_map; reflexivity).
  rewrite zip_with_maps. cbn [bind app].
  rewrite broadcast2_same_length
    by (now rewrite length_map, np_random_normal_length).
  reflexivity.
Qed.

(** C2: the synthetic [y] is the mixture model at the true parameters
    (5, 0.5, 1, 10, -0.2, 0.3) plus the noise draw of scale 0.4 and length
    [len(x)], element by element; so [y] minus the noise is the model. *)
Theorem C2_synthetic_is_model_plus_noise (randn : nat -> R) :
  demo.p_true = [5; 0.5; 1; 10; -0.2; 0.3] /\ demo.yerr = 0.4 /\
  exists m n yv,
    n = np_random_normal randn demo.yerr (length demo.x) /\
    length n = length demo.x /\
    value (model_numpy demo.p_true demo.x) = Some m /\
    value (demo.y randn) = Some yv /\
    yv = zip_with Rplus m n /\
    zip_with Rminus yv n = m.
Proof.
  split; [reflexivity|]. split; [reflexivity|].
  eexists _, _, _. split; [reflexivity|].
  split; [apply np_random_normal_length|].
  split; [unfold demo.p_true; rewrite model_numpy_closed_form; reflexivity|].
  split; [unfold demo.y; rewrite synthetic_closed_form; reflexivity|].
  split; [reflexivity|].
  apply zip_with_plus_minus.
  now rewrite length_map, np_random_normal_length.
Qed.

(** The same over any abscissae, not only the notebook's [x]. *)
Lemma synthetic_is_model_plus_noise (randn : nat -> R) (xs : array) :
  exists m,
    value (model_numpy demo.p_true xs) = Some m /\
    value (demo.synthetic randn xs) =
      Some (zip_with Rplus m (np_random_normal randn demo.yerr (length xs))).
Proof.
  eexists. unfold demo.p_true.
  rewrite model_numpy_closed_form, synthetic_closed_form. split; reflexivity.
Qed.

(** ** What the objective returns *)




(** ** Totality *)

Lemma model_numpy_length (p : list R) (x m : array) (ds : list R) :
  model_numpy p x = Done m ds -> length m = length x.
Proof.
  destruct (Nat.eq_dec (length p) 6) as [H|H].
  - do 7 (destruct p as [|? p]; try discriminate).
    rewrite model_numpy_closed_form. intros E. injection E as <- _.
    apply length_map.
  - unfold model_numpy. rewrite unpack6_raised by assumption. discriminate.
Qed.

Lemma chi2_numpy_unpack_raises (p : list R) (x y : array) (yerr : R) :
  length p <> 6%nat ->
  model_numpy p x = Raised (UnpackError 6 (length p)) /\
  chi2_numpy p x y yerr = Raised (UnpackError 6 (length p)).
Proof.
  intros H. unfold chi2_numpy, model_numpy.
  rewrite unpack6_raised by assumption. split; reflexivity.
Qed.

(** C5, as stated, fails for the objectives: six components, nonzero
    widths and a nonzero [yerr] do not make them total, since [x] of length
    3 against [y] of length 2 raises. *)
Lemma C5_mismatched_lengths_raise :
  length [1; 0; 1; 1; 0; 1] = 6%nat /\ 1 <> 0 /\
  chi2_numpy [1; 0; 1; 1; 0; 1] [0; 0; 0] [0; 0] 1 = Raised (ShapeError 3 2) /\
  chi2_jax [1; 0; 1; 1; 0; 1] [0; 0; 0] [0; 0] 1 = Raised (ShapeError 3 2).
Proof.
  split; [reflexivity|]. split; [lra|].
  rewrite <- chi2_numpy_chi2_jax.
  unfold chi2_numpy. rewrite model_numpy_closed_form.
  split; reflexivity.
Qed.



(** ** Failures propagate *)

Lemma value_bind {A B} (c : outcome A) (k : A -> outcome B) :
  value (bind c k) = match value c with Some a => value (k a) | None => None end.
Proof.
  destruct c as [a ds|e]; cbn; [|reflexivity].
  destruct (k a); reflexivity.
Qed.


Lemma numpyro_model_run (h : string -> nat -> R) (x y : array) (yerr : R) :
  run h (numpyro_model x y yerr) =
  ([ {| site_name := "amp0"; site_fn := Uniform 0 8;
        site_value := [h "amp0"%string 0%nat]; is_observed := false |};
     {| site_name := "amp1"; site_fn := Uniform 8 30;
        site_value := [h "amp1"%string 0%nat]; is_observed := false |};
     {| site_name := "center"; site_fn := Uniform (-1) 1;
        site_value := [h "center"%string 0%nat; h "center"%string 1%nat];
        is_observed := false |};
     {| site_name := "sigma"; site_fn := Uniform 0 3;
        site_value := [h "sigma"%string 0%nat; h "sigma"%string 1%nat];
        is_observed := false |};
     {| site_name := "obs";
        site_fn := Normal (map (mixture_spec (h "amp0"%string 0%nat)
                                  (h "center"%string 0%nat) (h "sigma"%string 0%nat)
                                  (h "amp1"%string 0%nat)
                                  (h "center"%string 1%nat) (h "sigma"%string 1%nat)) x)
                     yerr;
        site_value := y; is_observed := true |} ],
   inl tt).
Proof.
  unfold numpyro_model, sample, sample_n, observe.
  cbn [nbind run seq map unpack2].
  rewrite model_jax_closed_form.
  reflexivity.
Qed.


(** ** Exchanging the two components *)

Lemma mixture_spec_swap (a0 x0 s0 a1 x1 s1 v : R) :
  mixture_spec a0 x0 s0 a1 x1 s1 v = mixture_spec a1 x1 s1 a0 x0 s0 v.
Proof. unfold mixture_spec. apply Rplus_comm. Qed.

Lemma amplitude_priors_do_not_overlap
  (h : string -> nat -> R) (x y : array) (yerr v : R) :
  let tr := fst (run h (numpyro_model x y yerr)) in
  prior_of tr "amp0" = Some (Uniform 0 8) /\
  prior_of tr "amp1" = Some (Uniform 8 30) /\
  ~ (strictly_inside (Uniform 0 8) v /\ strictly_inside (Uniform 8 30) v).
Proof.
  cbv zeta. rewrite numpyro_model_run.
  split; [reflexivity|]. split; [reflexivity|].
  cbn. lra.
Qed.

(** C9: exchanging (a0, x0, s0) with (a1, x1, s1) changes neither the
    model nor, in consequence, the objectives. *)
Theorem C9_component_swap_invariance (a0 x0 s0 a1 x1 s1 : R) (x : array) :
  s0 <> 0 -> s1 <> 0 ->
  value (model_numpy [a0; x0; s0; a1; x1; s1] x) =
    value (model_numpy [a1; x1; s1; a0; x0; s0] x) /\
  value (model_jax [a0; x0; s0; a1; x1; s1] x) =
    value (model_jax [a1; x1; s1; a0; x0; s0] x) /\
  (exists m, value (model_numpy [a0; x0; s0; a1; x1; s1] x) = Some m) /\
  forall (y : array) (yerr : R),
    value (chi2_numpy [a0; x0; s0; a1; x1; s1] x y yerr) =
      value (chi2_numpy [a1; x1; s1; a0; x0; s0] x y yerr) /\
    value (chi2_jax [a0; x0; s0; a1; x1; s1] x y yerr) =
      value (chi2_jax [a1; x1; s1; a0; x0; s0] x y yerr).
Proof.
  intros _ _.
  assert (E : map (mixture_spec a0 x0 s0 a1 x1 s1) x =
              map (mixture_spec a1 x1 s1 a0 x0 s0) x).
  { apply map_ext. intros v. apply mixture_spec_swap. }
  split; [|split; [|split]].
  - rewrite !model_numpy_closed_form. cbn [value]. now rewrite E.
  - rewrite !model_jax_closed_form. cbn [value]. now rewrite E.
  - rewrite model_numpy_closed_form. cbn [value]. eauto.
  - intros y yerr. split.
    + unfold chi2_numpy. rewrite !value_bind, !model_numpy_closed_form.
      cbn [value]. now rewrite E.
    + unfold chi2_jax. rewrite !value_bind, !model_jax_closed_form.
      cbn [value]. now rewrite E.
Qed.

Lemma C9_component_swap_invariance_witness :
  value (chi2_numpy [5; 0; 2; 10; 0; 0.8] [0; 1] [1; 2] 0.4) =
  value (chi2_numpy [10; 0; 0.8; 5; 0; 2] [0; 1] [1; 2] 0.4).
Proof.
  destruct (C9_component_swap_invariance 5 0 2 10 0 0.8 [0; 1]) as (_ & _ & _ & H).
  - lra.
  - lra.
  - apply (H [1; 2] 0.4).
Defined.

(** ** The priors and the ground truth *)

(** C10: under the ground truth every latent site of [numpyro_model]
    takes a value strictly inside the support of its uniform prior:
    5 in (0, 8), 10 in (8, 30), 0.5 and -0.2 in (-1, 1), 1 and 0.3 in
    (0, 3). *)
Theorem C10_truth_inside_prior_support (x y : array) (yerr : R) :
  let tr := fst (run demo.truth (numpyro_model x y yerr)) in
  map (fun s => (site_name s, site_fn s, site_value s))
      (filter (fun s => negb (is_observed s)) tr) =
    [ ("amp0"%string, Uniform 0 8, [5]);
      ("amp1"%string, Uniform 8 30, [10]);
      ("center"%string, Uniform (-1) 1, [0.5; -0.2]);
      ("sigma"%string, Uniform 0 3, [1; 0.3]) ] /\
  Forall (fun s => is_observed s = false ->
                   Forall (strictly_inside (site_fn s)) (site_value s)) tr /\
  demo.truths = [5; 10; 0.5; -0.2; 1; 0.3] /\
  0 < demo.amp0 < 8 /\ 8 < demo.amp1 < 30 /\
  -1 < demo.x0 < 1 /\ -1 < demo.x1 < 1 /\
  0 < demo.s0 < 3 /\ 0 < demo.s1 < 3.
Proof.
  cbv zeta. rewrite numpyro_model_run.
  split; [reflexivity|]. split.
  - repeat constructor; cbn; intros; try discriminate;
      unfold demo.amp0, demo.amp1, demo.x0, demo.x1, demo.s0, demo.s1;
      repeat constructor; cbn; lra.
  - split; [reflexivity|].
    unfold demo.amp0, demo.amp1, demo.x0, demo.x1, demo.s0, demo.s1.
    repeat split; lra.
Qed.

(** ** The sample array *)

Lemma linspace_length (start stop : R) (num : nat) :
  length (linspace start stop num) = num.
Proof. unfold linspace. now rewrite length_map, length_seq. Qed.

Lemma linspace_nth (start stop : R) (num i : nat) :
  (i < num)%nat ->
  nth i (linspace start stop num) 0 =
  start + INR i * ((stop - start) / INR (num - 1)).
Proof.
  intros H. unfold linspace.
  set (f := fun i : nat => start + INR i * ((stop - start) / INR (num - 1))).
  rewrite (nth_indep _ 0 (f 0%nat)) by (now rewrite length_map, length_seq).
  rewrite map_nth, seq_nth by assumption. reflexivity.
Qed.

Lemma linspace_step (start stop : R) (num i : nat) :
  (S i < num)%nat ->
  nth (S i) (linspace start stop num) 0 - nth i (linspace start stop num) 0 =
  (stop - start) / INR (num - 1).
Proof.
  intros H. rewrite !linspace_nth by lia. rewrite S_INR. lra.
Qed.

Lemma linspace_endpoints (start stop : R) (num : nat) :
  (2 <= num)%nat ->
  nth 0 (linspace start stop num) 0 = start /\
  nth (num - 1) (linspace start stop num) 0 = stop.
Proof.
  intros H. rewrite !linspace_nth by lia. split.
  - cbn [INR]. lra.
  - assert (Hn : INR (num - 1) <> 0) by (apply not_0_INR; lia).
    field. assumption.
Qed.

Lemma last_is_nth (l : array) (d : R) :
  last l d = nth (length l - 1) l d.
Proof.
  induction l as [|a l IH]; [reflexivity|].
  destruct l as [|b l]; [reflexivity|].
  change (last (a :: b :: l) d) with (last (b :: l) d).
  rewrite IH. cbn [length Nat.sub nth]. now rewrite Nat.sub_0_r.
Qed.

(** The exact samples [-5 + i * 10/999] that [linspace] denotes: 1000 of
    them, from -5 to 5, with the constant step 10/999. *)
Lemma exact_samples_linearly_spaced :
  length demo.dev_arr = 1000%nat /\
  nth 0 demo.dev_arr 0 = -5 /\
  last demo.dev_arr 0 = 5 /\
  forall i : nat, (i < 999)%nat ->
    nth (S i) demo.dev_arr 0 - nth i demo.dev_arr 0 = 10 / 999.
Proof.
  unfold demo.dev_arr.
  destruct (linspace_endpoints (-5) 5 1000) as [H0 H999]; [lia|].
  split; [apply linspace_length|]. split; [exact H0|]. split.
  - now rewrite last_is_nth, linspace_length.
  - intros i Hi. rewrite linspace_step by lia.
    change (1000 - 1)%nat with 999%nat.
    rewrite INR_IZR_INZ. change (Z.of_nat 999) with 999%Z. lra.
Qed.


(** ** The sampler configuration *)

Lemma split_length (key : PRNGKeyArray) (num : nat) :
  length (split key num) = num.
Proof. unfold split. now rewrite length_map, length_seq. Qed.

(** C7: the host device count, the number of keys split from
    [PRNGKey(42)] and the number of chains are all [cpu_cores = 4]. *)
Theorem C7_worker_count_agrees :
  demo.cpu_cores = 4%nat /\
  xla_force_host_platform_device_count demo.host = Some demo.cpu_cores /\
  demo.rng_keys = split (PRNGKey 42) demo.cpu_cores /\
  length demo.rng_keys = demo.cpu_cores /\
  num_chains demo.mcmc = 4%nat /\
  length demo.rng_keys = num_chains demo.mcmc /\
  xla_force_host_platform_device_count demo.host = Some (num_chains demo.mcmc).
Proof.
  split; [reflexivity|]. split; [reflexivity|]. split; [reflexivity|].
  split; [apply split_length|]. split; [reflexivity|].
  split; [apply split_length|]. reflexivity.
Qed.



(** ** The later revision *)

Lemma revision_model_closed_form (a0 x0 s0 a1 x1 s1 : R) (x : array) :
  revision.model_numpy [a0; x0; s0; a1; x1; s1] x =
  Done (map (revision.normalised_mixture a0 x0 s0 a1 x1 s1) x)
       [s0; Rpower (2 * PI) 0.5; s0 ^ 2; s1; Rpower (2 * PI) 0.5; s1 ^ 2] /\
  revision.model_jax [a0; x0; s0; a1; x1; s1] x =
  revision.model_numpy [a0; x0; s0; a1; x1; s1] x.
Proof.
  split; [|reflexivity].
  unfold revision.model_numpy, revision.s_div, unpack6, arr_div_s, arr_add,
    np.exp, s_mul_arr, arr_pow2, arr_sub_s.
  cbn [bind ret app].
  rewrite !map_map.
  rewrite broadcast2_same_length by (rewrite !length_map; reflexivity).
  rewrite zip_with_maps. reflexivity.
Qed.

Lemma revision_component_swap (a0 x0 s0 a1 x1 s1 : R) (x : array) :
  value (revision.model_numpy [a0; x0; s0; a1; x1; s1] x) =
  value (revision.model_numpy [a1; x1; s1; a0; x0; s0] x).
Proof.
  rewrite !(proj1 (revision_model_closed_form _ _ _ _ _ _ _)). cbn [value].
  f_equal. apply map_ext. intros v.
  unfold revision.normalised_mixture. apply Rplus_comm.
Qed.

Lemma revision_priors (h : string -> nat -> R) (x y : array) (yerr v : R) :
  let tr := fst (run h (revision.numpyro_model x y yerr)) in
  prior_of tr "amp" = Some (Uniform 1 6) /\
  prior_of tr "x0" = Some (Uniform 0.1 2) /\
  prior_of tr "x1" = Some (Uniform (-1) 0.1) /\
  prior_of tr "sigma" = Some (Uniform 0 1) /\
  ~ (strictly_inside (Uniform 0.1 2) v /\ strictly_inside (Uniform (-1) 0.1) v).
Proof.
  cbv zeta.
  unfold revision.numpyro_model, sample, sample_n, observe.
  cbn [nbind run seq map unpack2].
  rewrite (proj2 (revision_model_closed_form _ _ _ _ _ _ _)).
  rewrite (proj1 (revision_model_closed_form _ _ _ _ _ _ _)).
  repeat (split; [reflexivity|]).
  cbn. lra.
Qed.


(** * Further properties of the cells *)

(** ** The model as a function of its parameter vector *)

Lemma model_numpy_of_length6 (p : list R) (x : array) :
  length p = 6%nat ->
  model_numpy p x = Done (map (mixture_of p) x) [nth 2 p 0 ^ 2; nth 5 p 0 ^ 2].
Proof.
  intros H. do 7 (destruct p as [|? p]; try discriminate).
  unfold mixture_of. cbn [nth]. apply model_numpy_closed_form.
Qed.

Lemma jnp_sum_nonneg (a : array) :
  Forall (fun v => 0 <= v) a -> 0 <= jnp.sum a.
Proof.
  unfold jnp.sum. induction 1 as [|v a Hv _ IH]; cbn; lra.
Qed.


Lemma weighted_square_nonneg (yerr : R) (r : array) :
  yerr <> 0 -> Forall (fun v => 0 <= v) (map (fun v => v / yerr ^ 2) (arr_pow2 r)).
Proof.
  intros Hy. unfold arr_pow2. rewrite map_map. apply Forall_forall.
  intros v Hv. apply in_map_iff in Hv. destruct Hv as (u & <- & _).
  assert (0 < yerr ^ 2) by (rewrite <- Rsqr_pow2; now apply Rsqr_pos_lt).
  apply Rmult_le_pos; [apply pow2_ge_0|].
  left. now apply Rinv_0_lt_compat.
Qed.

(** X1: the model returns one value per abscissa, with numpy as with jax. *)
Theorem model_output_has_shape_of_x (p : list R) (x m : array) (ds : list R) :
  model_numpy p x = Done m ds \/ model_jax p x = Done m ds ->
  length m = length x.
Proof.
  intros H.
  assert (Hn : model_numpy p x = Done m ds).
  { destruct H as [H|H]; [exact H|]. now rewrite model_numpy_model_jax. }
  now apply model_numpy_length in Hn.
Qed.

Lemma model_output_has_shape_of_x_witness :
  length (map (mixture_spec 5 0 2 10 0 0.8) [0; 1; 2]) = length [0; 1; 2].
Proof.
  apply (model_output_has_shape_of_x [5; 0; 2; 10; 0; 0.8] [0; 1; 2] _
           [2 ^ 2; 0.8 ^ 2]).
  left. apply model_numpy_closed_form.
Defined.


(** ** The objective as a function *)



(** X4: whenever an objective returns, with a nonzero [yerr], the value is not
    negative. *)
Theorem chi2_nonnegative (p : list R) (x y : array) (yerr c : R) (ds : list R) :
  yerr <> 0 ->
  chi2_numpy p x y yerr = Done c ds \/ chi2_jax p x y yerr = Done c ds ->
  0 <= c.
Proof.
  intros Hy H.
  assert (Hj : chi2_jax p x y yerr = Done c ds).
  { destruct H as [H|H]; [|exact H]. now rewrite <- chi2_numpy_chi2_jax. }
  clear H. unfold chi2_jax in Hj.
  destruct (model_jax p x) as [m dm|e]; [|discriminate].
  cbn [bind] in Hj.
  destruct (arr_sub m y) as [r dr|e]; [|discriminate].
  cbn [bind arr_div_s ret] in Hj. injection Hj as <- _.
  apply jnp_sum_nonneg, weighted_square_nonneg, Hy.
Qed.

Lemma chi2_nonnegative_witness :
  0 <= sum_weighted_sq_residuals (map (mixture_spec 5 0 2 10 0 0.8) [0; 1]) [1; 2] 0.4.
Proof.
  apply (chi2_nonnegative [5; 0; 2; 10; 0; 0.8] [0; 1] [1; 2] 0.4 _
           [2 ^ 2; 0.8 ^ 2; 0.4 ^ 2]).
  - lra.
  - left. apply chi2_numpy_equal_lengths. reflexivity.
Defined.

Lemma chi2_numpy_of_length6 (p : list R) (x y : array) (yerr : R) :
  length p = 6%nat -> length x = length y ->
  chi2_numpy p x y yerr =
  Done (sum_weighted_sq_residuals (map (mixture_of p) x) y yerr)
       [nth 2 p 0 ^ 2; nth 5 p 0 ^ 2; yerr ^ 2].
Proof.
  intros H Hlen. do 7 (destruct p as [|? p]; try discriminate).
  unfold mixture_of. cbn [nth]. now apply chi2_numpy_equal_lengths.
Qed.







(** ** Edge shapes *)

Lemma arr_sub_length_one (m : array) (c : R) :
  arr_sub m [c] = Done (map (fun u => u - c) m) [].
Proof.
  unfold arr_sub, broadcast2, ret.
  destruct m as [|u [|u' m]]; reflexivity.
Qed.

Lemma jnp_sum_constant_target (m : array) (c yerr : R) :
  jnp.sum (map (fun v => v / yerr ^ 2) (arr_pow2 (map (fun u => u - c) m))) =
  sum_weighted_sq_residuals m (repeat c (length m)) yerr.
Proof.
  unfold jnp.sum, arr_pow2.
  induction m as [|u m IH]; cbn [map fold_right length repeat
    sum_weighted_sq_residuals]; [reflexivity|].
  now rewrite IH.
Qed.





(** ** Bounds and symmetries of the model *)




(** X10: the model is linear in the two amplitudes: amplitudes add, and a common
    factor comes out. *)
Theorem model_linear_in_amplitudes (a0 b0 x0 s0 a1 b1 x1 s1 c : R) (x : array) :
  exists ma mb,
    value (model_numpy [a0; x0; s0; a1; x1; s1] x) = Some ma /\
    value (model_numpy [b0; x0; s0; b1; x1; s1] x) = Some mb /\
    value (model_numpy [a0 + b0; x0; s0; a1 + b1; x1; s1] x) =
      Some (zip_with Rplus ma mb) /\
    value (model_numpy [c * a0; x0; s0; c * a1; x1; s1] x) = Some (s_mul_arr c ma).
Proof.
  eexists _, _. rewrite !model_numpy_closed_form. cbn [value].
  split; [reflexivity|]. split; [reflexivity|].
  unfold s_mul_arr. rewrite zip_with_maps, map_map.
  split; f_equal; apply map_ext; intros v; unfold mixture_spec; ring.
Qed.

(** X11: only the squares of the widths enter: changing the sign of a width
    changes neither the model nor the objective. *)
Theorem model_ignores_sign_of_widths (a0 x0 s0 a1 x1 s1 : R) (x y : array) (yerr : R) :
  value (model_numpy [a0; x0; - s0; a1; x1; s1] x) =
    value (model_numpy [a0; x0; s0; a1; x1; s1] x) /\
  value (model_numpy [a0; x0; s0; a1; x1; - s1] x) =
    value (model_numpy [a0; x0; s0; a1; x1; s1] x) /\
  value (chi2_numpy [a0; x0; - s0; a1; x1; - s1] x y yerr) =
    value (chi2_numpy [a0; x0; s0; a1; x1; s1] x y yerr) /\
  value (chi2_jax [a0; x0; - s0; a1; x1; - s1] x y yerr) =
    value (chi2_jax [a0; x0; s0; a1; x1; s1] x y yerr).
Proof.
  assert (E : forall t0 t1, (t0 = s0 \/ t0 = - s0) -> (t1 = s1 \/ t1 = - s1) ->
            map (mixture_spec a0 x0 t0 a1 x1 t1) x =
            map (mixture_spec a0 x0 s0 a1 x1 s1) x).
  { intros t0 t1 Ht0 Ht1. apply map_ext. intros v. unfold mixture_spec.
    replace (t0 ^ 2) with (s0 ^ 2) by (destruct Ht0; subst; ring).
    replace (t1 ^ 2) with (s1 ^ 2) by (destruct Ht1; subst; ring).
    reflexivity. }
  split; [|split; [|split]].
  - rewrite !model_numpy_closed_form. cbn [value]. f_equal. apply E; auto.
  - rewrite !model_numpy_closed_form. cbn [value]. f_equal. apply E; auto.
  - unfold chi2_numpy. rewrite !value_bind, !model_numpy_closed_form.
    cbn [value]. now rewrite (E (- s0) (- s1)) by auto.
  - unfold chi2_jax. rewrite !value_bind, !model_jax_closed_form.
    cbn [value]. now rewrite (E (- s0) (- s1)) by auto.
Qed.

(** X12: moving both centres and every abscissa by the same amount leaves the
    model values unchanged. *)
Theorem model_translation_invariant (a0 x0 s0 a1 x1 s1 t : R) (x : array) :
  value (model_numpy [a0; x0 + t; s0; a1; x1 + t; s1] (map (fun v => v + t) x)) =
    value (model_numpy [a0; x0; s0; a1; x1; s1] x) /\
  value (model_jax [a0; x0 + t; s0; a1; x1 + t; s1] (map (fun v => v + t) x)) =
    value (model_jax [a0; x0; s0; a1; x1; s1] x).
Proof.
  assert (E : map (fun v => mixture_spec a0 (x0 + t) s0 a1 (x1 + t) s1 (v + t)) x =
              map (mixture_spec a0 x0 s0 a1 x1 s1) x).
  { apply map_ext. intros v. unfold mixture_spec.
    replace (v + t - (x0 + t)) with (v - x0) by ring.
    replace (v + t - (x1 + t)) with (v - x1) by ring. reflexivity. }
  split.
  - rewrite !model_numpy_closed_form. cbn [value]. now rewrite map_map, E.
  - rewrite !model_jax_closed_form. cbn [value]. now rewrite map_map, E.
Qed.

(** ** The objective on the synthetic data *)

Lemma synthetic_length (randn : nat -> R) (xs yv : array) (ds : list R) :
  demo.synthetic randn xs = Done yv ds -> length yv = length xs.
Proof.
  rewrite synthetic_closed_form. intros E. injection E as <- _.
  rewrite zip_with_length; rewrite length_map; [reflexivity|].
  now rewrite np_random_normal_length.
Qed.

Lemma chi2_of_model_plus_noise (randn : nat -> R) (yerr : R) (m : array) (s : nat) :
  yerr <> 0 ->
  sum_weighted_sq_residuals m
    (zip_with Rplus m (map (fun i => 0 + yerr * randn i) (seq s (length m)))) yerr =
  jnp.sum (map (fun i => randn i ^ 2) (seq s (length m))).
Proof.
  intros Hy. unfold jnp.sum, zip_with. revert s.
  induction m as [|mi m IH]; intros s; [reflexivity|].
  cbn [length seq map combine fst snd sum_weighted_sq_residuals fold_right].
  rewrite IH. f_equal. field. assumption.
Qed.



(** X14: at the true parameters the objective on the synthetic data is the sum
    of the squares of the standard normal deviates that were drawn, one per
    abscissa, whatever the abscissae. *)
Theorem chi2_at_truth_is_sum_of_squared_deviates (randn : nat -> R) (xs : array) :
  exists yv,
    value (demo.synthetic randn xs) = Some yv /\
    value (chi2_numpy demo.p_true xs yv demo.yerr) =
      Some (jnp.sum (map (fun i => randn i ^ 2) (seq 0 (length xs)))) /\
    value (chi2_jax demo.p_true xs yv demo.yerr) =
      Some (jnp.sum (map (fun i => randn i ^ 2) (seq 0 (length xs)))).
Proof.
  eexists. rewrite synthetic_closed_form. split; [reflexivity|].
  set (m := map (mixture_spec demo.amp0 demo.x0 demo.s0 demo.amp1 demo.x1 demo.s1) xs).
  assert (Hlen : length xs = length m) by (unfold m; now rewrite length_map).
  assert (Hn : value (chi2_numpy demo.p_true xs
                        (zip_with Rplus m (np_random_normal randn demo.yerr (length xs)))
                        demo.yerr) =
               Some (jnp.sum (map (fun i => randn i ^ 2) (seq 0 (length xs))))).
  { unfold demo.p_true. rewrite chi2_numpy_equal_lengths.
    - cbn [value]. f_equal. fold m. unfold np_random_normal. rewrite Hlen.
      apply chi2_of_model_plus_noise. unfold demo.yerr. lra.
    - rewrite zip_with_length; rewrite <- Hlen; [reflexivity|].
      now rewrite np_random_normal_length. }
  split; [exact Hn|]. now rewrite <- chi2_numpy_chi2_jax.
Qed.

(** ** Draws inside the priors *)

Lemma draw_inside_priors_inv (h : string -> nat -> R) (x y : array) (yerr : R) :
  draw_inside_priors (fst (run h (numpyro_model x y yerr))) <->
  0 < h "amp0"%string 0%nat < 8 /\ 8 < h "amp1"%string 0%nat < 30 /\
  (-1 < h "center"%string 0%nat < 1 /\ -1 < h "center"%string 1%nat < 1) /\
  (0 < h "sigma"%string 0%nat < 3 /\ 0 < h "sigma"%string 1%nat < 3).
Proof.
  rewrite numpyro_model_run. unfold draw_inside_priors. cbn [fst]. split.
  - intros H.
    inversion_clear H as [|? ? H0 H']. inversion_clear H' as [|? ? H1 H''].
    inversion_clear H'' as [|? ? H2 H3']. inversion_clear H3' as [|? ? H3 _].
    specialize (H0 eq_refl). specialize (H1 eq_refl).
    specialize (H2 eq_refl). specialize (H3 eq_refl).
    cbn in H0, H1, H2, H3.
    inversion_clear H0 as [|? ? A0 _]. inversion_clear H1 as [|? ? A1 _].
    inversion_clear H2 as [|? ? C0 H2']. inversion_clear H2' as [|? ? C1 _].
    inversion_clear H3 as [|? ? S0 H3']. inversion_clear H3' as [|? ? S1 _].
    cbn in *. tauto.
  - intros (A0 & A1 & (C0 & C1) & (S0 & S1)).
    repeat constructor; cbn; intros; try discriminate; repeat constructor;
      cbn; lra.
Qed.



(** X16: the priors on the amplitudes break the exchange symmetry: exchanging
    the two components of a draw gives the same likelihood location, but of
    a draw and its exchange at most one lies inside the priors. *)
Theorem priors_exclude_the_exchanged_draw
  (h : string -> nat -> R) (x y : array) (yerr : R) :
  observed_loc (fst (run (swap_labels h) (numpyro_model x y yerr))) =
    observed_loc (fst (run h (numpyro_model x y yerr))) /\
  (draw_inside_priors (fst (run h (numpyro_model x y yerr))) ->
   ~ draw_inside_priors (fst (run (swap_labels h) (numpyro_model x y yerr)))).
Proof.
  split.
  - rewrite !numpyro_model_run. cbn [fst observed_loc find is_observed site_fn].
    f_equal. apply map_ext. intros v. apply mixture_spec_swap.
  - intros H Hs. apply draw_inside_priors_inv in H, Hs.
    destruct H as (A0 & _). destruct Hs as (_ & A0' & _).
    cbn in A0'. lra.
Qed.

Lemma priors_exclude_the_exchanged_draw_witness :
  ~ draw_inside_priors
      (fst (run (swap_labels demo.truth) (numpyro_model [0; 1] [1; 2] 0.4))).
Proof.
  apply (priors_exclude_the_exchanged_draw demo.truth [0; 1] [1; 2] 0.4).
  apply draw_inside_priors_inv. cbn.
  unfold demo.amp0, demo.amp1, demo.x0, demo.x1, demo.s0, demo.s1.
  repeat split; lra.
Defined.

(** ** The sample array in order *)


(** X17: An ascending [linspace] is strictly increasing and stays between its
    end points; [dev_arr] is such an array between -5 and 5. *)
Theorem linspace_increasing_in_range (start stop : R) (num i j : nat) :
  start < stop -> (i < j)%nat -> (j < num)%nat ->
  nth i (linspace start stop num) 0 < nth j (linspace start stop num) 0 /\
  start <= nth i (linspace start stop num) 0 /\
  nth j (linspace start stop num) 0 <= stop.
Proof.
  intros Hlt Hij Hj. rewrite !linspace_nth by lia.
  assert (Hn : INR (num - 1) = INR num - 1) by (rewrite minus_INR by lia; reflexivity).
  assert (Hnum : 1 < INR num) by (change 1 with (INR 1); apply lt_INR; lia).
  assert (Hi : 0 <= INR i) by apply pos_INR.
  assert (Hij' : INR i < INR j) by now apply lt_INR.
  assert (Hj' : INR j <= INR num - 1).
  { rewrite <- Hn. apply le_INR. lia. }
  rewrite Hn.
  set (h := (stop - start) / (INR num - 1)).
  assert (Hh : 0 < h) by (unfold h; apply Rdiv_lt_0_compat; lra).
  assert (Hend : h * (INR num - 1) = stop - start) by (unfold h; field; lra).
  repeat split; nra.
Qed.

Lemma linspace_increasing_in_range_witness :
  nth 0 demo.dev_arr 0 < nth 999 demo.dev_arr 0 /\
  -5 <= nth 0 demo.dev_arr 0 /\ nth 999 demo.dev_arr 0 <= 5.
Proof.
  apply (linspace_increasing_in_range (-5) 5 1000 0 999); [lra|lia|lia].
Defined.



(** ** The later revision: normalised Gaussians *)

Lemma sqrt_two_pi_nonzero : Rpower (2 * PI) 0.5 <> 0.
Proof. unfold Rpower. pose proof (exp_pos (0.5 * ln (2 * PI))). lra. Qed.

Lemma revision_chi2_numpy_chi2_jax (p : list R) (x y : array) (yerr : R) :
  revision.chi2_numpy p x y yerr = revision.chi2_jax p x y yerr.
Proof.
  unfold revision.chi2_numpy, revision.chi2_jax.
  change (revision.model_jax p x) with (revision.model_numpy p x).
  destruct (revision.model_numpy p x) as [m ds|e]; [|reflexivity].
  cbn [bind]. destruct (arr_sub m y) as [r ds'|e]; [|reflexivity].
  cbn [bind arr_div_s ret]. now rewrite np_sum_jnp_sum.
Qed.

Lemma revision_chi2_equal_lengths (a0 x0 s0 a1 x1 s1 : R) (x y : array) (yerr : R) :
  length x = length y ->
  revision.chi2_numpy [a0; x0; s0; a1; x1; s1] x y yerr =
  Done (sum_weighted_sq_residuals
          (map (revision.normalised_mixture a0 x0 s0 a1 x1 s1) x) y yerr)
       [s0; Rpower (2 * PI) 0.5; s0 ^ 2; s1; Rpower (2 * PI) 0.5; s1 ^ 2; yerr ^ 2].
Proof.
  intros Hlen. rewrite revision_chi2_numpy_chi2_jax. unfold revision.chi2_jax.
  change (revision.model_jax [a0; x0; s0; a1; x1; s1] x)
    with (revision.model_numpy [a0; x0; s0; a1; x1; s1] x).
  rewrite (proj1 (revision_model_closed_form a0 x0 s0 a1 x1 s1 x)).
  cbn [bind]. unfold arr_sub.
  rewrite broadcast2_same_length by now rewrite length_map.
  cbn [bind arr_div_s ret app]. now rewrite jnp_sum_weighted.
Qed.


(** X19: the revision's model is the first model with each amplitude divided by
    its width and by the square root of two pi; its objective likewise. *)
Theorem revision_rescales_the_amplitudes
  (a0 x0 s0 a1 x1 s1 : R) (x y : array) (yerr : R) :
  s0 <> 0 -> s1 <> 0 ->
  value (revision.model_numpy [a0; x0; s0; a1; x1; s1] x) =
    value (model_numpy [a0 / s0 / Rpower (2 * PI) 0.5; x0; s0;
                        a1 / s1 / Rpower (2 * PI) 0.5; x1; s1] x) /\
  value (revision.model_jax [a0; x0; s0; a1; x1; s1] x) =
    value (model_jax [a0 / s0 / Rpower (2 * PI) 0.5; x0; s0;
                      a1 / s1 / Rpower (2 * PI) 0.5; x1; s1] x) /\
  value (revision.chi2_numpy [a0; x0; s0; a1; x1; s1] x y yerr) =
    value (chi2_numpy [a0 / s0 / Rpower (2 * PI) 0.5; x0; s0;
                       a1 / s1 / Rpower (2 * PI) 0.5; x1; s1] x y yerr).
Proof.
  intros _ _.
  assert (Hm : value (revision.model_numpy [a0; x0; s0; a1; x1; s1] x) =
               value (model_numpy [a0 / s0 / Rpower (2 * PI) 0.5; x0; s0;
                                   a1 / s1 / Rpower (2 * PI) 0.5; x1; s1] x)).
  { rewrite (proj1 (revision_model_closed_form a0 x0 s0 a1 x1 s1 x)).
    rewrite model_numpy_closed_form. reflexivity. }
  split; [exact Hm|]. split.
  - change (revision.model_jax [a0; x0; s0; a1; x1; s1] x)
      with (revision.model_numpy [a0; x0; s0; a1; x1; s1] x).
    rewrite Hm. now rewrite model_numpy_model_jax.
  - unfold revision.chi2_numpy, chi2_numpy. rewrite !value_bind, Hm.
    reflexivity.
Qed.

Lemma revision_rescales_the_amplitudes_witness :
  value (revision.model_numpy [5; 0.5; 0.7; 4; -0.2; 0.3] [0; 1]) =
  value (model_numpy [5 / 0.7 / Rpower (2 * PI) 0.5; 0.5; 0.7;
                      4 / 0.3 / Rpower (2 * PI) 0.5; -0.2; 0.3] [0; 1]).
Proof.
  apply (revision_rescales_the_amplitudes 5 0.5 0.7 4 (-0.2) 0.3 [0; 1] [1; 2] 0.4);
    lra.
Defined.



(** X21: in the revision the sign of a width is not invisible: changing the
    signs of a width and of its amplitude together leaves the model
    unchanged, so changing the sign of the width alone negates that
    component. *)
Theorem revision_sign_of_width_pairs_with_amplitude
  (a0 x0 s0 a1 x1 s1 : R) (x : array) :
  s0 <> 0 -> s1 <> 0 ->
  value (revision.model_numpy [- a0; x0; - s0; a1; x1; s1] x) =
    value (revision.model_numpy [a0; x0; s0; a1; x1; s1] x) /\
  value (revision.model_numpy [a0; x0; s0; - a1; x1; - s1] x) =
    value (revision.model_numpy [a0; x0; s0; a1; x1; s1] x) /\
  value (revision.model_numpy [a0; x0; - s0; 0; x1; s1] x) =
    value (revision.model_numpy [- a0; x0; s0; 0; x1; s1] x).
Proof.
  intros H0 H1. pose proof sqrt_two_pi_nonzero as HK.
  rewrite !(proj1 (revision_model_closed_form _ _ _ _ _ _ _)). cbn [value].
  repeat split; f_equal; apply map_ext; intros v;
    unfold revision.normalised_mixture.
  - replace ((- s0) ^ 2) with (s0 ^ 2) by ring.
    f_equal. f_equal. field. split; assumption.
  - replace ((- s1) ^ 2) with (s1 ^ 2) by ring.
    f_equal. f_equal. field. split; assumption.
  - replace ((- s0) ^ 2) with (s0 ^ 2) by ring.
    f_equal. f_equal. field. split; assumption.
Qed.

Lemma revision_sign_of_width_pairs_with_amplitude_witness :
  value (revision.model_numpy [- (5); 0.5; - (0.7); 4; -0.2; 0.3] [0; 1]) =
  value (revision.model_numpy [5; 0.5; 0.7; 4; -0.2; 0.3] [0; 1]).
Proof.
  apply (revision_sign_of_width_pairs_with_amplitude 5 0.5 0.7 4 (-0.2) 0.3 [0; 1]);
    lra.
Defined.

Lemma revision_synthetic_closed_form (randn : nat -> R) (xs : array) :
  revision.synthetic randn xs =
  Done (zip_with Rplus
          (map (revision.normalised_mixture revision.amp0 revision.x0 revision.s0
                  revision.amp1 revision.x1 revision.s1) xs)
          (np_random_normal randn revision.yerr (length xs)))
       [revision.s0; Rpower (2 * PI) 0.5; revision.s0 ^ 2;
        revision.s1; Rpower (2 * PI) 0.5; revision.s1 ^ 2].
Proof.
  unfold revision.synthetic, revision.s_div, arr_div_s, arr_add, np.exp,
    s_mul_arr, arr_pow2, arr_sub_s.
  cbn [bind ret app].
  rewrite !map_map.
  rewrite broadcast2_same_length by (rewrite !length_map; reflexivity).
  rewrite zip_with_maps. cbn [bind app].
  rewrite broadcast2_same_length
    by (now rewrite length_map, np_random_normal_length).
  reflexivity.
Qed.

(** X22: the revision's synthetic [y] is its model at its true parameters
    (5, 0.5, 0.7, 4, -0.2, 0.3) plus the noise draw, one value per
    abscissa, and its objective there is again the sum of the squared
    standard normal deviates. *)
Theorem revision_synthetic_is_model_plus_noise (randn : nat -> R) (xs : array) :
  exists m yv,
    value (revision.model_numpy
             [revision.amp0; revision.x0; revision.s0;
              revision.amp1; revision.x1; revision.s1] xs) = Some m /\
    value (revision.synthetic randn xs) = Some yv /\
    yv = zip_with Rplus m (np_random_normal randn revision.yerr (length xs)) /\
    length yv = length xs /\
    value (revision.chi2_numpy
             [revision.amp0; revision.x0; revision.s0;
              revision.amp1; revision.x1; revision.s1] xs yv revision.yerr) =
      Some (jnp.sum (map (fun i => randn i ^ 2) (seq 0 (length xs)))).
Proof.
  eexists _, _.
  rewrite (proj1 (revision_model_closed_form _ _ _ _ _ _ _)).
  rewrite revision_synthetic_closed_form. cbn [value].
  split; [reflexivity|]. split; [reflexivity|]. split; [reflexivity|].
  set (m := map (revision.normalised_mixture revision.amp0 revision.x0 revision.s0
                   revision.amp1 revision.x1 revision.s1) xs).
  assert (Hlen : length xs = length m) by (unfold m; now rewrite length_map).
  assert (Hy : length (zip_with Rplus m
                         (np_random_normal randn revision.yerr (length xs))) =
               length xs).
  { rewrite zip_with_length; rewrite <- Hlen; [reflexivity|].
    now rewrite np_random_normal_length. }
  split; [exact Hy|].
  rewrite revision_chi2_equal_lengths by now symmetry.
  cbn [value]. f_equal. fold m. unfold np_random_normal. rewrite Hlen.
  apply chi2_of_model_plus_noise. unfold revision.yerr. lra.
Qed.

(** ** The later revision: draws inside the priors *)

Lemma revision_numpyro_model_run (h : string -> nat -> R) (x y : array) (yerr : R) :
  run h (revision.numpyro_model x y yerr) =
  ([ {| site_name := "amp"; site_fn := Uniform 1 6;
        site_value := [h "amp"%string 0%nat; h "amp"%string 1%nat];
        is_observed := false |};
     {| site_name := "x0"; site_fn := Uniform 0.1 2;
        site_value := [h "x0"%string 0%nat]; is_observed := false |};
     {| site_name := "x1"; site_fn := Uniform (-1) 0.1;
        site_value := [h "x1"%string 0%nat]; is_observed := false |};
     {| site_name := "sigma"; site_fn := Uniform 0 1;
        site_value := [h "sigma"%string 0%nat; h "sigma"%string 1%nat];
        is_observed := false |};
     {| site_name := "obs";
        site_fn := Normal (map (revision.normalised_mixture
                                  (h "amp"%string 0%nat) (h "x0"%string 0%nat)
                                  (h "sigma"%string 0%nat) (h "amp"%string 1%nat)
                                  (h "x1"%string 0%nat) (h "sigma"%string 1%nat)) x)
                     yerr;
        site_value := y; is_observed := true |} ],
   inl tt).
Proof.
  unfold revision.numpyro_model, sample, sample_n, observe.
  cbn [nbind run seq map unpack2].
  change (revision.model_jax
            [h "amp"%string 0%nat; h "x0"%string 0%nat; h "sigma"%string 0%nat;
             h "amp"%string 1%nat; h "x1"%string 0%nat; h "sigma"%string 1%nat] x)
    with (revision.model_numpy
            [h "amp"%string 0%nat; h "x0"%string 0%nat; h "sigma"%string 0%nat;
             h "amp"%string 1%nat; h "x1"%string 0%nat; h "sigma"%string 1%nat] x).
  rewrite (proj1 (revision_model_closed_form _ _ _ _ _ _ _)).
  reflexivity.
Qed.

Lemma revision_draw_inside_priors_inv (h : string -> nat -> R) (x y : array) (yerr : R) :
  draw_inside_priors (fst (run h (revision.numpyro_model x y yerr))) <->
  (1 < h "amp"%string 0%nat < 6 /\ 1 < h "amp"%string 1%nat < 6) /\
  0.1 < h "x0"%string 0%nat < 2 /\ -1 < h "x1"%string 0%nat < 0.1 /\
  (0 < h "sigma"%string 0%nat < 1 /\ 0 < h "sigma"%string 1%nat < 1).
Proof.
  rewrite revision_numpyro_model_run. unfold draw_inside_priors. cbn [fst]. split.
  - intros H.
    inversion_clear H as [|? ? H0 H']. inversion_clear H' as [|? ? H1 H''].
    inversion_clear H'' as [|? ? H2 H3']. inversion_clear H3' as [|? ? H3 _].
    specialize (H0 eq_refl). specialize (H1 eq_refl).
    specialize (H2 eq_refl). specialize (H3 eq_refl).
    cbn in H0, H1, H2, H3.
    inversion_clear H0 as [|? ? A0 H0']. inversion_clear H0' as [|? ? A1 _].
    inversion_clear H1 as [|? ? C0 _]. inversion_clear H2 as [|? ? C1 _].
    inversion_clear H3 as [|? ? S0 H3']. inversion_clear H3' as [|? ? S1 _].
    cbn in *. tauto.
  - intros ((A0 & A1) & C0 & C1 & (S0 & S1)).
    repeat constructor; cbn; intros; try discriminate; repeat constructor;
      cbn; lra.
Qed.

(** X23: in the revision it is the priors on the two means that break the
    exchange symmetry: exchanging the components of a draw gives the same
    likelihood location, and of a draw and its exchange at most one lies
    inside the priors.  The two amplitudes share one prior: exchanging them
    alone never leaves the priors. *)
Theorem revision_priors_order_the_means_only
  (h : string -> nat -> R) (x y : array) (yerr : R) :
  observed_loc (fst (run (revision_swap_labels h) (revision.numpyro_model x y yerr))) =
    observed_loc (fst (run h (revision.numpyro_model x y yerr))) /\
  (draw_inside_priors (fst (run h (revision.numpyro_model x y yerr))) ->
   ~ draw_inside_priors
       (fst (run (revision_swap_labels h) (revision.numpyro_model x y yerr))) /\
   draw_inside_priors
     (fst (run (swap_amplitudes h) (revision.numpyro_model x y yerr)))).
Proof.
  split.
  - rewrite !revision_numpyro_model_run.
    cbn [fst observed_loc find is_observed site_fn].
    f_equal. apply map_ext. intros v.
    unfold revision.normalised_mixture. cbn. apply Rplus_comm.
  - intros H. split.
    + intros Hs. apply revision_draw_inside_priors_inv in H, Hs.
      destruct H as (_ & C0 & _). destruct Hs as (_ & _ & C1' & _).
      cbn in C1'. lra.
    + apply revision_draw_inside_priors_inv in H.
      apply revision_draw_inside_priors_inv. cbn. tauto.
Qed.

Lemma revision_priors_order_the_means_only_witness :
  ~ draw_inside_priors
      (fst (run (revision_swap_labels revision_truth)
              (revision.numpyro_model [0; 1] [1; 2] 0.4))) /\
  draw_inside_priors
    (fst (run (swap_amplitudes revision_truth)
            (revision.numpyro_model [0; 1] [1; 2] 0.4))).
Proof.
  apply (revision_priors_order_the_means_only revision_truth [0; 1] [1; 2] 0.4).
  apply revision_draw_inside_priors_inv. cbn.
  unfold revision.amp0, revision.amp1, revision.x0, revision.x1,
    revision.s0, revision.s1.
  repeat split; lra.
Defined.



(** * The edge of the float range *)

(** ** Squares of scalars *)

Lemma bind_ret_l {A B} (a : A) (k : A -> outcome B) : bind (ret a) k = k a.
Proof. unfold bind, ret. destruct (k a); reflexivity. Qed.

Lemma pow2_done (k : scalar_kind) (v : R) :
  k = numpy_scalar \/ v ^ 2 < float64_overflow -> pow2 k v = Done (v ^ 2) [].
Proof.
  intros H. destruct k; [reflexivity|]. unfold pow2.
  destruct (Rle_dec float64_overflow (v ^ 2)) as [Hle|Hnle]; [|reflexivity].
  destruct H as [H|H]; [discriminate|lra].
Qed.

Lemma pow2_raised_iff (k : scalar_kind) (v : R) (e : exn) :
  pow2 k v = Raised e <->
  k = python_float /\ float64_overflow <= v ^ 2 /\ e = OverflowError.
Proof.
  destruct k; unfold pow2, ret.
  - split; [discriminate|]. intros (H & _). discriminate.
  - destruct (Rle_dec float64_overflow (v ^ 2)) as [Hle|Hnle]; split.
    + intros E. injection E as <-. auto.
    + intros (_ & _ & ->). reflexivity.
    + discriminate.
    + intros (_ & H & _). contradiction.
Qed.

Lemma normal_range_below_overflow (d : R) :
  in_normal_range d -> d < float64_overflow.
Proof.
  intros [_ H]. apply Rle_lt_trans with (1 := H).
  unfold float64_overflow.
  rewrite !pow_IZR, <- minus_IZR, <- mult_IZR. apply IZR_lt. reflexivity.
Qed.

Lemma square_in_normal_range (s : R) :
  square_stays_normal s -> in_normal_range (s ^ 2).
Proof.
  intros [Hlo Hhi]. unfold in_normal_range.
  rewrite <- (pow2_abs s).
  assert (Hp : 0 < / 2 ^ 63) by (apply Rinv_0_lt_compat, pow_lt; lra).
  replace (/ 2 ^ 126) with ((/ 2 ^ 63) ^ 2)
    by (rewrite pow_inv, <- pow_mult; reflexivity).
  replace (2 ^ 126) with ((2 ^ 63) ^ 2) by (rewrite <- pow_mult; reflexivity).
  split; apply pow_incr; lra.
Qed.

Lemma normal_range_nonzero (d : R) : in_normal_range d -> d <> 0.
Proof.
  intros [H _].
  assert (0 < / 2 ^ 126) by (apply Rinv_0_lt_compat, pow_lt; lra). lra.
Qed.

(** ** The model and the objective by kind of scalar *)

Lemma model_numpy_as_unpack_raises (kp : scalar_kind) (p : list R) (x : array) :
  length p <> 6%nat -> model_numpy_as kp p x = Raised (UnpackError 6 (length p)).
Proof.
  intros H. unfold model_numpy_as. now rewrite unpack6_raised.
Qed.

Lemma bind_done_nil {A B} (a : A) (k : A -> outcome B) : bind (Done a []) k = k a.
Proof. apply bind_ret_l. Qed.

Lemma model_numpy_as_no_overflow
  (kp : scalar_kind) (a0 x0 s0 a1 x1 s1 : R) (x : array) :
  kp = numpy_scalar \/ (s0 ^ 2 < float64_overflow /\ s1 ^ 2 < float64_overflow) ->
  model_numpy_as kp [a0; x0; s0; a1; x1; s1] x =
  Done (map (mixture_spec a0 x0 s0 a1 x1 s1) x) [s0 ^ 2; s1 ^ 2].
Proof.
  intros H.
  rewrite <- model_numpy_closed_form.
  unfold model_numpy_as, model_numpy, unpack6. cbv iota.
  rewrite !bind_ret_l.
  rewrite (pow2_done kp s0), bind_done_nil by tauto.
  unfold arr_div_s at 1 3. cbn [bind].
  rewrite (pow2_done kp s1), bind_done_nil by tauto.
  reflexivity.
Qed.

Lemma model_numpy_as_overflow (a0 x0 s0 a1 x1 s1 : R) (x : array) :
  float64_overflow <= s0 ^ 2 \/ float64_overflow <= s1 ^ 2 ->
  model_numpy_as python_float [a0; x0; s0; a1; x1; s1] x = Raised OverflowError.
Proof.
  intros H. unfold model_numpy_as, unpack6. cbv iota. rewrite bind_ret_l.
  destruct (Rle_dec float64_overflow (s0 ^ 2)) as [H0|H0].
  - rewrite (proj2 (pow2_raised_iff python_float s0 OverflowError)) by auto.
    reflexivity.
  - rewrite (pow2_done python_float s0), bind_done_nil by (right; lra).
    unfold arr_div_s at 1. cbn [bind].
    rewrite (proj2 (pow2_raised_iff python_float s1 OverflowError))
      by (destruct H; [contradiction|auto]).
    reflexivity.
Qed.

Lemma model_numpy_as_length (kp : scalar_kind) (p : list R) (x m : array) (ds : list R) :
  model_numpy_as kp p x = Done m ds -> length m = length x.
Proof.
  destruct (Nat.eq_dec (length p) 6) as [H|H].
  - do 7 (destruct p as [|? p]; try discriminate).
    destruct kp.
    + rewrite model_numpy_as_no_overflow by auto.
      intros E. injection E as <- _. apply length_map.
    + destruct (Rle_dec float64_overflow (r1 ^ 2)) as [H0|H0];
        [rewrite model_numpy_as_overflow by auto; discriminate|].
      destruct (Rle_dec float64_overflow (r4 ^ 2)) as [H1|H1];
        [rewrite model_numpy_as_overflow by auto; discriminate|].
      rewrite model_numpy_as_no_overflow by (right; lra).
      intros E. injection E as <- _. apply length_map.
  - rewrite model_numpy_as_unpack_raises by assumption. discriminate.
Qed.

Lemma model_numpy_as_numpy_scalar (p : list R) (x : array) :
  model_numpy_as numpy_scalar p x = model_numpy p x.
Proof.
  destruct (Nat.eq_dec (length p) 6) as [H|H].
  - do 7 (destruct p as [|? p]; try discriminate).
    rewrite model_numpy_as_no_overflow by auto.
    now rewrite model_numpy_closed_form.
  - rewrite model_numpy_as_unpack_raises by assumption.
    unfold model_numpy. now rewrite unpack6_raised.
Qed.

Lemma chi2_numpy_as_numpy_scalar (p : list R) (x y : array) (yerr : R) :
  chi2_numpy_as numpy_scalar numpy_scalar p x y yerr = chi2_numpy p x y yerr.
Proof.
  unfold chi2_numpy_as, chi2_numpy. rewrite model_numpy_as_numpy_scalar.
  destruct (model_numpy p x) as [m ds|e]; [|reflexivity]. cbn [bind].
  destruct (arr_sub m y) as [r ds'|e]; [|reflexivity]. cbn [bind pow2].
  now rewrite bind_ret_l.
Qed.

Lemma broadcast2_done_inv (f : R -> R -> R) (a b r : array) (ds : list R) :
  broadcast2 f a b = Done r ds -> broadcastable (length a) (length b).
Proof.
  unfold broadcast2, broadcastable.
  destruct (Nat.eqb_spec (length a) (length b)) as [Heq|Hne]; [auto|].
  destruct a as [|u [|u' a]]; destruct b as [|v [|v' b]]; cbn;
    try discriminate; auto.
Qed.

Lemma arr_sub_raised_iff (m y : array) (e : exn) :
  arr_sub m y = Raised e <->
  ~ broadcastable (length m) (length y) /\ e = ShapeError (length m) (length y).
Proof.
  split.
  - intros H. apply broadcast2_raised in H. tauto.
  - intros [Hnb ->]. destruct (arr_sub m y) as [r ds|e] eqn:E.
    + apply broadcast2_done_inv in E. contradiction.
    + apply broadcast2_raised in E. destruct E as [-> _]. reflexivity.
Qed.

Lemma arr_sub_done (m y : array) :
  broadcastable (length m) (length y) -> exists r, arr_sub m y = Done r [].
Proof. apply broadcast2_done. Qed.

Lemma chi2_numpy_as_done
  (kp ky : scalar_kind) (p : list R) (x y m r : array) (yerr : R) (ds : list R) :
  model_numpy_as kp p x = Done m ds ->
  arr_sub m y = Done r [] ->
  ky = numpy_scalar \/ yerr ^ 2 < float64_overflow ->
  chi2_numpy_as kp ky p x y yerr =
  Done (np.sum (map (fun v => v / yerr ^ 2) (arr_pow2 r))) (ds ++ [yerr ^ 2]).
Proof.
  intros Hm Hr Hy. unfold chi2_numpy_as. rewrite Hm. cbn [bind]. rewrite Hr.
  cbn [bind]. rewrite (pow2_done ky yerr) by assumption. reflexivity.
Qed.

(** ** Totality *)

Lemma model_total_in_range
  (kp : scalar_kind) (a0 x0 s0 a1 x1 s1 : R) (x : array) :
  square_stays_normal s0 -> square_stays_normal s1 ->
  (exists m,
     model_numpy_as kp [a0; x0; s0; a1; x1; s1] x = Done m [s0 ^ 2; s1 ^ 2] /\
     model_jax [a0; x0; s0; a1; x1; s1] x = Done m [s0 ^ 2; s1 ^ 2] /\
     length m = length x) /\
  Forall in_normal_range
    (divisions (model_numpy_as kp [a0; x0; s0; a1; x1; s1] x)) /\
  Forall (fun d => d <> 0)
    (divisions (model_numpy_as kp [a0; x0; s0; a1; x1; s1] x)).
Proof.
  intros Hs0 Hs1.
  pose proof (square_in_normal_range s0 Hs0) as R0.
  pose proof (square_in_normal_range s1 Hs1) as R1.
  pose proof (normal_range_below_overflow _ R0) as O0.
  pose proof (normal_range_below_overflow _ R1) as O1.
  assert (Hm : model_numpy_as kp [a0; x0; s0; a1; x1; s1] x =
               Done (map (mixture_spec a0 x0 s0 a1 x1 s1) x) [s0 ^ 2; s1 ^ 2])
    by (apply model_numpy_as_no_overflow; tauto).
  rewrite Hm. cbn [divisions]. split; [|split].
  - eexists. split; [reflexivity|].
    split; [apply model_jax_closed_form|apply length_map].
  - apply Forall_cons; [exact R0|].
    apply Forall_cons; [exact R1|apply Forall_nil].
  - apply Forall_cons; [now apply normal_range_nonzero|].
    apply Forall_cons; [now apply normal_range_nonzero|apply Forall_nil].
Qed.

Lemma chi2_total_in_range
  (kp ky : scalar_kind) (a0 x0 s0 a1 x1 s1 : R) (x y : array) (yerr : R) :
  square_stays_normal s0 -> square_stays_normal s1 ->
  square_stays_normal yerr -> broadcastable (length x) (length y) ->
  (exists c,
     chi2_numpy_as kp ky [a0; x0; s0; a1; x1; s1] x y yerr =
       Done c [s0 ^ 2; s1 ^ 2; yerr ^ 2] /\
     chi2_jax [a0; x0; s0; a1; x1; s1] x y yerr =
       Done c [s0 ^ 2; s1 ^ 2; yerr ^ 2]) /\
  Forall in_normal_range
    (divisions (chi2_numpy_as kp ky [a0; x0; s0; a1; x1; s1] x y yerr)).
Proof.
  intros Hs0 Hs1 Hy Hb.
  pose proof (square_in_normal_range s0 Hs0) as R0.
  pose proof (square_in_normal_range s1 Hs1) as R1.
  pose proof (square_in_normal_range yerr Hy) as R2.
  pose proof (normal_range_below_overflow _ R0) as O0.
  pose proof (normal_range_below_overflow _ R1) as O1.
  pose proof (normal_range_below_overflow _ R2) as O2.
  assert (Hm : model_numpy_as kp [a0; x0; s0; a1; x1; s1] x =
               Done (map (mixture_spec a0 x0 s0 a1 x1 s1) x) [s0 ^ 2; s1 ^ 2])
    by (apply model_numpy_as_no_overflow; tauto).
  destruct (arr_sub_done (map (mixture_spec a0 x0 s0 a1 x1 s1) x) y) as [r Hr].
  { now rewrite length_map. }
  rewrite (chi2_numpy_as_done kp ky _ _ _ _ _ _ _ Hm Hr) by tauto.
  cbn [divisions app]. split.
  - eexists. split; [reflexivity|].
    erewrite chi2_jax_steps;
      [ | apply model_jax_closed_form | exact Hr ].
    now rewrite np_sum_jnp_sum.
  - apply Forall_cons; [exact R0|].
    apply Forall_cons; [exact R1|].
    apply Forall_cons; [exact R2|apply Forall_nil].
Qed.

Lemma all_raise_without_six_components
  (kp ky : scalar_kind) (p : list R) (x y : array) (yerr : R) :
  length p <> 6%nat ->
  model_numpy_as kp p x = Raised (UnpackError 6 (length p)) /\
  model_jax p x = Raised (UnpackError 6 (length p)) /\
  chi2_numpy_as kp ky p x y yerr = Raised (UnpackError 6 (length p)) /\
  chi2_jax p x y yerr = Raised (UnpackError 6 (length p)).
Proof.
  intros H.
  assert (Hm : model_numpy_as kp p x = Raised (UnpackError 6 (length p)))
    by now apply model_numpy_as_unpack_raises.
  destruct (chi2_numpy_unpack_raises p x y yerr H) as [Hn Hc].
  pose proof (model_numpy_model_jax p x) as Em.
  pose proof (chi2_numpy_chi2_jax p x y yerr) as Ec.
  split; [exact Hm|]. split; [congruence|]. split; [|congruence].
  unfold chi2_numpy_as. now rewrite Hm.
Qed.

(** C5, amended: with six components and widths whose magnitude lies
    between [2^-63] and [2^63], the models return one value per abscissa,
    whatever the kind of scalar, and the two divisors [s0^2] and [s1^2]
    stay inside the normal float range, so they neither vanish nor
    overflow; with [yerr] in the same range and shapes of [x] and [y] that
    broadcast the objectives return as well, the third divisor [yerr^2]
    being in range too.  A Python-float width whose square overflows makes
    [model_numpy] raise; a parameter vector without six components raises
    at the unpacking in all of them. *)
Theorem C5_total_inside_the_float_range :
  (forall (kp ky : scalar_kind) (a0 x0 s0 a1 x1 s1 : R) (x y : array) (yerr : R),
     square_stays_normal s0 -> square_stays_normal s1 ->
     (exists m,
        model_numpy_as kp [a0; x0; s0; a1; x1; s1] x = Done m [s0 ^ 2; s1 ^ 2] /\
        model_jax [a0; x0; s0; a1; x1; s1] x = Done m [s0 ^ 2; s1 ^ 2] /\
        length m = length x) /\
     Forall in_normal_range
       (divisions (model_numpy_as kp [a0; x0; s0; a1; x1; s1] x)) /\
     Forall (fun d => d <> 0)
       (divisions (model_numpy_as kp [a0; x0; s0; a1; x1; s1] x)) /\
     (square_stays_normal yerr -> broadcastable (length x) (length y) ->
      (exists c,
         chi2_numpy_as kp ky [a0; x0; s0; a1; x1; s1] x y yerr =
           Done c [s0 ^ 2; s1 ^ 2; yerr ^ 2] /\
         chi2_jax [a0; x0; s0; a1; x1; s1] x y yerr =
           Done c [s0 ^ 2; s1 ^ 2; yerr ^ 2]) /\
      Forall in_normal_range
        (divisions (chi2_numpy_as kp ky [a0; x0; s0; a1; x1; s1] x y yerr)))) /\
  (forall (a0 x0 s0 a1 x1 s1 : R) (x : array),
     float64_overflow <= s0 ^ 2 \/ float64_overflow <= s1 ^ 2 ->
     model_numpy_as python_float [a0; x0; s0; a1; x1; s1] x = Raised OverflowError) /\
  (forall (kp ky : scalar_kind) (p : list R) (x y : array) (yerr : R),
     length p <> 6%nat ->
     model_numpy_as kp p x = Raised (UnpackError 6 (length p)) /\
     model_jax p x = Raised (UnpackError 6 (length p)) /\
     chi2_numpy_as kp ky p x y yerr = Raised (UnpackError 6 (length p)) /\
     chi2_jax p x y yerr = Raised (UnpackError 6 (length p))).
Proof.
  split; [|split].
  - intros kp ky a0 x0 s0 a1 x1 s1 x y yerr Hs0 Hs1.
    destruct (model_total_in_range kp a0 x0 s0 a1 x1 s1 x Hs0 Hs1) as (Hm & Hr & Hz).
    split; [exact Hm|]. split; [exact Hr|]. split; [exact Hz|].
    intros Hy Hb. now apply chi2_total_in_range.
  - intros a0 x0 s0 a1 x1 s1 x H. now apply model_numpy_as_overflow.
  - intros kp ky p x y yerr H. now apply all_raise_without_six_components.
Qed.

Lemma C5_total_inside_the_float_range_witness :
  (exists c,
     chi2_numpy_as numpy_scalar python_float [5; 0; 2; 10; 0; 0.8] [0; 1] [1; 2] 0.4 =
       Done c [2 ^ 2; 0.8 ^ 2; 0.4 ^ 2]) /\
  model_numpy_as python_float [5; 0; 10 ^ 200; 10; 0; 0.8] [0; 1] = Raised OverflowError /\
  model_numpy_as numpy_scalar [1; 2; 3] [0; 1] = Raised (UnpackError 6 3).
Proof.
  destruct C5_total_inside_the_float_range as (Hok & Hover & Hbad).
  assert (Hr : forall s, / 2 <= s <= 2 -> square_stays_normal s).
  { intros s Hs. unfold square_stays_normal. rewrite Rabs_pos_eq by lra.
    assert (1 <= 2 ^ 63) by (apply pow_R1_Rle; lra).
    assert (/ 2 ^ 63 <= / 1) by (apply Rinv_le_contravar; lra).
    lra. }
  split; [|split].
  - destruct (Hok numpy_scalar python_float 5 0 2 10 0 0.8 [0; 1] [1; 2] 0.4)
      as (_ & _ & _ & Hc).
    + apply Hr. lra.
    + apply Hr. lra.
    + destruct Hc as [(c & Hn & _) _].
      * unfold square_stays_normal. rewrite Rabs_pos_eq by lra.
        assert (4 <= 2 ^ 63) by (rewrite pow_IZR; apply IZR_le, Z.leb_le; vm_compute; reflexivity).
        assert (/ 2 ^ 63 <= / 4) by (apply Rinv_le_contravar; lra).
        lra.
      * left. reflexivity.
      * exists c. exact Hn.
  - apply (Hover 5 0 (10 ^ 200) 10 0 0.8 [0; 1]). left.
    unfold float64_overflow.
    rewrite <- pow_mult, !pow_IZR, <- minus_IZR, <- mult_IZR.
    apply IZR_le, Z.leb_le. vm_compute. reflexivity.
  - destruct (Hbad numpy_scalar numpy_scalar [1; 2; 3] [0; 1] [1; 2] 0.4) as (Hm & _).
    + cbn. lia.
    + exact Hm.
Defined.

(** ** Failures propagate *)

Lemma chi2_numpy_as_raised_iff
  (kp ky : scalar_kind) (p : list R) (x y : array) (yerr : R) (e : exn) :
  chi2_numpy_as kp ky p x y yerr = Raised e <->
  model_numpy_as kp p x = Raised e \/
  exists m ds,
    model_numpy_as kp p x = Done m ds /\
    ((~ broadcastable (length m) (length y) /\ e = ShapeError (length m) (length y)) \/
     (broadcastable (length m) (length y) /\ ky = python_float /\
      float64_overflow <= yerr ^ 2 /\ e = OverflowError)).
Proof.
  unfold chi2_numpy_as. rewrite bind_raised_inv.
  split; (intros [H|(m & ds & Hm & H)];
          [now left|right; exists m, ds; split; [assumption|]]).
  - apply bind_raised_inv in H. destruct H as [H|(r & ds' & Hr & H)].
    + left. now apply arr_sub_raised_iff.
    + right. split; [now apply broadcast2_done_inv in Hr|].
      apply bind_raised_inv in H. destruct H as [H|(d & dd & _ & H)].
      * now apply pow2_raised_iff.
      * discriminate.
  - apply bind_raised_inv. destruct H as [H|(Hb & Hk & Ho & ->)].
    + left. now apply arr_sub_raised_iff.
    + right. destruct (arr_sub_done m y Hb) as [r Hr].
      exists r, []. split; [exact Hr|].
      apply bind_raised_inv. left. now apply pow2_raised_iff.
Qed.

Lemma chi2_jax_raised_iff (p : list R) (x y : array) (yerr : R) (e : exn) :
  chi2_jax p x y yerr = Raised e <->
  model_jax p x = Raised e \/
  exists m ds,
    model_jax p x = Done m ds /\
    ~ broadcastable (length m) (length y) /\ e = ShapeError (length m) (length y).
Proof.
  unfold chi2_jax. rewrite bind_raised_inv.
  split; (intros [H|(m & ds & Hm & H)];
          [now left|right; exists m, ds; split; [assumption|]]).
  - apply bind_raised_inv in H. destruct H as [H|(r & ds' & _ & H)].
    + now apply arr_sub_raised_iff.
    + discriminate.
  - apply bind_raised_inv. left. now apply arr_sub_raised_iff.
Qed.

(** C8, as stated, fails: with a Python float [yerr = 1e200] the objective
    raises [OverflowError] at [yerr ** 2], although the inner model call
    returns and the model output and [y] combine. *)
Lemma C8_overflow_of_yerr_raises :
  exists m ds r,
    model_numpy_as numpy_scalar [0; 0; 1; 0; 0; 1] [0] = Done m ds /\
    arr_sub m [1] = Done r [] /\
    chi2_numpy_as numpy_scalar python_float [0; 0; 1; 0; 0; 1] [0] [1] (10 ^ 200) =
      Raised OverflowError.
Proof.
  assert (Hm : model_numpy_as numpy_scalar [0; 0; 1; 0; 0; 1] [0] =
               Done (map (mixture_spec 0 0 1 0 0 1) [0]) [1 ^ 2; 1 ^ 2])
    by (apply model_numpy_as_no_overflow; auto).
  eexists _, _, _. split; [exact Hm|]. split; [reflexivity|].
  apply chi2_numpy_as_raised_iff. right. eexists _, _. split; [exact Hm|].
  right. split; [left; reflexivity|]. split; [reflexivity|]. split; [|reflexivity].
  unfold float64_overflow.
  rewrite <- pow_mult, !pow_IZR, <- minus_IZR, <- mult_IZR.
  apply IZR_le, Z.leb_le. vm_compute. reflexivity.
Qed.

(** C8, amended: [chi2_numpy] raises exactly when its inner call of
    [model_numpy] raises, or the model output and [y] do not broadcast (a
    shape error naming both lengths), or [yerr] is a Python float whose
    square leaves the float range ([OverflowError]); [chi2_jax] raises
    exactly in the first two cases.  The exception is the one of the
    failing step. *)
Theorem C8_raises_exactly_with_overflow :
  (forall (kp ky : scalar_kind) (p : list R) (x y : array) (yerr : R) (e : exn),
     chi2_numpy_as kp ky p x y yerr = Raised e <->
     model_numpy_as kp p x = Raised e \/
     exists m ds,
       model_numpy_as kp p x = Done m ds /\
       ((~ broadcastable (length m) (length y) /\
         e = ShapeError (length m) (length y)) \/
        (broadcastable (length m) (length y) /\ ky = python_float /\
         float64_overflow <= yerr ^ 2 /\ e = OverflowError))) /\
  (forall (p : list R) (x y : array) (yerr : R) (e : exn),
     chi2_jax p x y yerr = Raised e <->
     model_jax p x = Raised e \/
     exists m ds,
       model_jax p x = Done m ds /\
       ~ broadcastable (length m) (length y) /\
       e = ShapeError (length m) (length y)) /\
  (forall (kp : scalar_kind) (p : list R) (x m : array) (ds : list R),
     model_numpy_as kp p x = Done m ds \/ model_jax p x = Done m ds ->
     length m = length x).
Proof.
  split; [|split].
  - apply chi2_numpy_as_raised_iff.
  - apply chi2_jax_raised_iff.
  - intros kp p x m ds [H|H].
    + now apply model_numpy_as_length in H.
    + rewrite <- model_numpy_model_jax in H. now apply model_numpy_length in H.
Qed.

Lemma C8_raises_exactly_with_overflow_witness :
  chi2_jax [0; 0; 1; 0; 0; 1] [0; 0; 0] [0; 0] 1 = Raised (ShapeError 3 2) /\
  chi2_numpy_as numpy_scalar python_float [0; 0; 1; 0; 0; 1] [0; 0; 0] [0; 0] 1 =
    Raised (ShapeError 3 2).
Proof.
  destruct C8_raises_exactly_with_overflow as (Hn & Hj & _). split.
  - apply Hj. right. eexists _, _. split; [apply model_jax_closed_form|].
    split; [|reflexivity]. cbn. unfold broadcastable. lia.
  - apply Hn. right. eexists _, _.
    split; [apply model_numpy_as_no_overflow; auto|].
    left. split; [|reflexivity]. cbn. unfold broadcastable. lia.
Defined.

(** * The sample array in float32 *)

Lemma binary32_scaled (r : R) :
  binary32 r -> exists k : Z, r * 2 ^ 149 = IZR k.
Proof.
  intros (m & e & _ & [He _] & ->).
  exists (m * 2 ^ (e + 149))%Z.
  rewrite mult_IZR, Rmult_assoc. f_equal.
  rewrite (pow_powerRZ 2 149).
  change (Z.of_nat 149) with 149%Z.
  rewrite <- powerRZ_add by lra.
  rewrite <- (Z2Nat.id (e + 149)) by lia.
  rewrite <- pow_powerRZ, pow_IZR. reflexivity.
Qed.

Lemma float32_step_is_not_10_over_999 (a b : R) :
  binary32 a -> binary32 b -> b - a <> 10 / 999.
Proof.
  intros Ha Hb H.
  destruct (binary32_scaled a Ha) as [ka Hka].
  destruct (binary32_scaled b Hb) as [kb Hkb].
  assert (E : IZR ((kb - ka) * 999) = IZR (10 * 2 ^ 149)).
  { rewrite !mult_IZR, minus_IZR, <- Hka, <- Hkb.
    change 149%Z with (Z.of_nat 149). rewrite <- pow_IZR.
    replace (b * 2 ^ 149 - a * 2 ^ 149) with ((b - a) * 2 ^ 149) by ring.
    rewrite H. field. }
  apply eq_IZR in E.
  assert (M : (((kb - ka) * 999) mod 3 = 0)%Z).
  { replace ((kb - ka) * 999)%Z with ((kb - ka) * 333 * 3)%Z by ring.
    apply Z.mod_mul. discriminate. }
  rewrite E in M. vm_compute in M. discriminate.
Qed.

Lemma binary32_five : binary32 (-5) /\ binary32 5.
Proof.
  split.
  - exists (-5)%Z, 0%Z. repeat split; try reflexivity; try lia. cbn. lra.
  - exists 5%Z, 0%Z. repeat split; try reflexivity; try lia. cbn. lra.
Qed.

Lemma exact_sample_range (i : nat) :
  (i < 1000)%nat -> -5 <= nth i demo.dev_arr 0 <= 5.
Proof.
  intros Hi. unfold demo.dev_arr. rewrite linspace_nth by assumption.
  change (1000 - 1)%nat with 999%nat.
  assert (E : INR 999 = 999) by (rewrite INR_IZR_INZ; reflexivity).
  assert (H0 : 0 <= INR i) by apply pos_INR.
  assert (H1 : INR i <= 999) by (rewrite <- E; apply le_INR; lia).
  rewrite E. set (t := INR i) in *. lra.
Qed.

Lemma exact_step (i : nat) :
  (i < 999)%nat -> nth (S i) demo.dev_arr 0 - nth i demo.dev_arr 0 = 10 / 999.
Proof.
  intros Hi. unfold demo.dev_arr. rewrite linspace_step by lia.
  change (1000 - 1)%nat with 999%nat.
  rewrite INR_IZR_INZ. change (Z.of_nat 999) with 999%Z. lra.
Qed.


Lemma Rabs_le_bounds (a b : R) : Rabs a <= b -> - b <= a <= b.
Proof. unfold Rabs. destruct (Rcase_abs a); lra. Qed.

Lemma floor_to_grid_close (r : R) : Rabs (floor_to_grid r - r) <= / 2 ^ 21.
Proof.
  unfold floor_to_grid.
  destruct (base_Int_part (r * 2 ^ 21)) as [Hle Hgt].
  assert (HP : 0 < 2 ^ 21) by (apply pow_lt; lra).
  assert (Hi : 0 < / 2 ^ 21) by now apply Rinv_0_lt_compat.
  set (m := IZR (Int_part (r * 2 ^ 21))) in *.
  replace (m / 2 ^ 21 - r) with ((m - r * 2 ^ 21) * / 2 ^ 21) by (field; lra).
  apply Rabs_le. split.
  - replace (- / 2 ^ 21) with (-1 * / 2 ^ 21) by ring.
    apply Rmult_le_compat_r; lra.
  - apply Rle_trans with (0 * / 2 ^ 21); [|lra].
    apply Rmult_le_compat_r; lra.
Qed.

Lemma floor_to_grid_binary32 (r : R) : -5 <= r <= 5 -> binary32 (floor_to_grid r).
Proof.
  intros [Hlo Hhi]. unfold floor_to_grid.
  destruct (base_Int_part (r * 2 ^ 21)) as [Hle Hgt].
  assert (HP : 2 ^ 21 = 2097152) by (simpl; lra).
  exists (Int_part (r * 2 ^ 21)), (-21)%Z. split; [|split].
  - rewrite HP in Hle, Hgt.
    assert (H1 : IZR (Int_part (r * 2097152)) <= IZR 10485760) by lra.
    assert (H2 : IZR (-10485761) < IZR (Int_part (r * 2097152))) by lra.
    apply le_IZR in H1. apply lt_IZR in H2. rewrite HP.
    apply Z.abs_lt. change (2 ^ 24)%Z with 16777216%Z. lia.
  - lia.
  - unfold Rdiv. f_equal.
Qed.


